(** * AI Personality Chatbot: the conversation logic of [streamlit.py]

    A shallow embedding of the script's session state, of the request it
    sends to the completion endpoint and of one run of [main], followed by
    the properties of the transcript and of the request.

    Conventions of the embedding.
    - Python values that flow through the script (the prompt, the decoded
      response body, the reply) are terms of [value].
    - The script runs in the monad [M]: a computation takes the [world]
      (session state, elements shown so far, requests sent so far) and
      returns a result or a raised exception together with the new world.
      As in Python, what a computation did before it raised stays done.
    - The two logs of the world, [display] and [sent], are kept newest
      first.
    - What the front end reports for the widgets in one run, and what the
      network does with a request, are the two parameters of a run
      ([widgets] and [post]).  A run is not interrupted from outside. *)

From Stdlib Require Import List String Ascii ZArith QArith Bool Arith Lia.
From Stdlib Require Import DecimalString.
Import ListNotations.
Close Scope Q_scope.
Open Scope string_scope.
Open Scope list_scope.


Set Warnings "-register-all".

(* ===================================================================== *)
(** * Python values and the primitives the script uses *)
(* ===================================================================== *)

(** Values as [response.json()] produces them, and [str] for text. *)
Inductive value : Type :=
| VNone
| VBool (b : bool)
| VInt (z : Z)
| VFloat (q : Q)
| VStr (s : string)
| VList (l : list value)
| VDict (d : list (string * value)).

(** A transcript entry, the dict [{"role": ..., "content": ...}]. *)
Record Message : Type := mkMessage { role : string; content : value }.

(** The exceptions that occur.  [RerunException] is the control-flow
    exception of [st.rerun()]; it is not a subclass of [Exception]. *)
Inductive exception : Type :=
| Timeout (msg : string)
| OtherException (msg : string)
| JSONDecodeError (msg : string)
| KeyError (msg : string)
| IndexError (msg : string)
| TypeError (msg : string)
| ValueError (msg : string)
| AttributeError (msg : string)
| RerunException.

(** [isinstance(e, Exception)]. *)
Definition is_Exception (e : exception) : bool :=
  match e with
  | RerunException => false
  | _ => true
  end.

(** [str(e)]. *)
Definition str_of_exception (e : exception) : string :=
  match e with
  | Timeout msg | OtherException msg | JSONDecodeError msg | KeyError msg
  | IndexError msg | TypeError msg | ValueError msg | AttributeError msg => msg
  | RerunException => ""
  end.

(** [str(n)] for integers. *)
Definition str_of_Z (z : Z) : string := NilZero.string_of_int (Z.to_int z).
Definition str_of_nat (n : nat) : string := NilZero.string_of_uint (Nat.to_uint n).

(** Truth value of a [str]: false exactly for the empty string. *)
Definition truthy (s : string) : bool :=
  match s with
  | EmptyString => false
  | String _ _ => true
  end.

(** [d[k]] on a dict with string keys, as an association list in
    insertion order. *)
Fixpoint dict_get {A : Type} (d : list (string * A)) (k : string) : option A :=
  match d with
  | [] => None
  | (k', v) :: rest => if String.eqb k k' then Some v else dict_get rest k
  end.

(** [list(d.keys())]. *)
Definition dict_keys {A : Type} (d : list (string * A)) : list string :=
  map fst d.

(** [l.index(x)]: position of the first occurrence. *)
Fixpoint list_index (l : list string) (x : string) : option nat :=
  match l with
  | [] => None
  | y :: rest =>
      if String.eqb x y then Some 0%nat
      else option_map S (list_index rest x)
  end.

(** [l[start:]] with Python's clamping of the start position. *)
Definition slice_from {A : Type} (start : Z) (l : list A) : list A :=
  let len := Z.of_nat (List.length l) in
  let lo := if (start <? 0)%Z then Z.max (len + start) 0 else Z.min start len in
  skipn (Z.to_nat lo) l.

(** Subscript keys: [v["name"]] and [v[0]]. *)
Inductive key : Type :=
| KStr (s : string)
| KInt (i : Z).

(** Position denoted by an integer index into a sequence of length [len]. *)
Definition normalize_index (i : Z) (len : nat) : option nat :=
  let i' := if (i <? 0)%Z then (i + Z.of_nat len)%Z else i in
  if ((0 <=? i') && (i' <? Z.of_nat len))%Z%bool then Some (Z.to_nat i') else None.

(** [v[k]]: what subscripting a decoded JSON value does. *)
Definition getitem (v : value) (k : key) : exception + value :=
  match v, k with
  | VDict d, KStr s =>
      match dict_get d s with
      | Some x => inr x
      | None => inl (KeyError ("'" ++ s ++ "'"))
      end
  | VDict _, KInt i => inl (KeyError (str_of_Z i))
  | VList l, KInt i =>
      match normalize_index i (List.length l) with
      | Some n =>
          match nth_error l n with
          | Some x => inr x
          | None => inl (IndexError "list index out of range")
          end
      | None => inl (IndexError "list index out of range")
      end
  | VList _, KStr _ =>
      inl (TypeError "list indices must be integers or slices, not str")
  | VStr s, KInt i =>
      match normalize_index i (String.length s) with
      | Some n =>
          match String.get n s with
          | Some c => inr (VStr (String c EmptyString))
          | None => inl (IndexError "string index out of range")
          end
      | None => inl (IndexError "string index out of range")
      end
  | VStr _, KStr _ => inl (TypeError "string indices must be integers, not 'str'")
  | VNone, _ => inl (TypeError "'NoneType' object is not subscriptable")
  | VBool _, _ => inl (TypeError "'bool' object is not subscriptable")
  | VInt _, _ => inl (TypeError "'int' object is not subscriptable")
  | VFloat _, _ => inl (TypeError "'float' object is not subscriptable")
  end.

(* ===================================================================== *)
(** * The HTTP client: request, response, outcome of a POST *)
(* ===================================================================== *)

(** The dict [data] of [call_groq_api], sent as the JSON body.  The
    float literal of [temperature] is kept as the decimal number that is
    written in the source and in the body. *)
Module Data.
Record t : Type := mk {
  model : string;
  messages : list Message;
  temperature : Q;
  max_tokens : Z;
  stream : bool
}.
End Data.

(** The arguments of [requests.post]. *)
Module Request.
Record t : Type := mk {
  url : string;
  headers : list (string * string);
  json : Data.t;
  timeout : Z
}.
End Request.

(** What the script reads of a response: [status_code], [text] and
    [json()], which either decodes the body or raises with a message. *)
Module Response.
Record t : Type := mk {
  status_code : Z;
  text : string;
  json : string + value
}.
End Response.

(** What [requests.post] does: it returns a response, raises
    [requests.exceptions.Timeout], or raises some other [Exception]. *)
Inductive outcome : Type :=
| Responds (r : Response.t)
| TimesOut (msg : string)
| Fails (msg : string).

(* ===================================================================== *)
(** * The user interface: session state and displayed elements *)
(* ===================================================================== *)

(** [st.session_state].  A key that is not set yet is [None]. *)
Module session_state.
Record t : Type := mk {
  messages : option (list Message);
  groq_api_key : option string;
  selected_personality : option string;
  selected_model : option string
}.

Definition empty : t := mk None None None None.
End session_state.

(** The calls of the [st] module that put something on the page. *)
Inductive element : Type :=
| Title (body : string)
| Markdown (body : value)
| Header (body : string)
| Subheader (body : string)
| Divider
| Warning (body : string)
| Info (body : string)
| Error (body : string)
| Metric (label : string) (n : nat)
| Columns (n : nat)
| Container
| Spinner (body : string)
| ChatMessage (name : string)
| TextInput (label value : string)
| Selectbox (label : string) (options : list string) (index : nat)
| Button (label : string)
| ChatInput (placeholder : string).

Record world : Type := mkWorld {
  session : session_state.t;
  display : list element;
  sent : list Request.t
}.

(** What the front end reports for the five widgets of the page in one
    run of the script. *)
Record widgets : Type := mkWidgets {
  api_key_input : string;
  model_select : string;
  personality_select : string;
  clear_chat_button : bool;
  chat_input_submit : option string
}.

(* ===================================================================== *)
(** * The monad of the script *)
(* ===================================================================== *)

Inductive result (A : Type) : Type :=
| Return (a : A)
| Raise (e : exception).
Arguments Return {A} a.
Arguments Raise {A} e.

Definition M (A : Type) : Type := world -> result A * world.

Definition ret {A : Type} (a : A) : M A := fun w => (Return a, w).

Definition bind {A B : Type} (c : M A) (k : A -> M B) : M B :=
  fun w =>
    match c w with
    | (Return a, w') => k a w'
    | (Raise e, w') => (Raise e, w')
    end.

Definition raise {A : Type} (e : exception) : M A := fun w => (Raise e, w).

(** [try: body  except ...: handler].  The handler answers [None] for an
    exception that no clause matches, which then propagates. *)
Definition try_except {A : Type} (body : M A)
    (handler : exception -> option (M A)) : M A :=
  fun w =>
    match body w with
    | (Return a, w') => (Return a, w')
    | (Raise e, w') =>
        match handler e with
        | Some h => h w'
        | None => (Raise e, w')
        end
    end.

Declare Scope script_scope.
Delimit Scope script_scope with script.
Notation "x <- c ;; k" := (bind c (fun x => k))
  (at level 61, c at next level, right associativity) : script_scope.
Notation "c ;; k" := (bind c (fun _ => k))
  (at level 61, right associativity) : script_scope.
Open Scope script_scope.

(** Lifting of a pure operation that may raise. *)
Definition lift {A : Type} (r : exception + A) : M A :=
  match r with
  | inl e => raise e
  | inr a => ret a
  end.

(** [if c: body]. *)
Definition when (c : bool) (body : M unit) : M unit :=
  if c then body else ret tt.

(** [for x in l: body]. *)
Fixpoint for_each {A : Type} (l : list A) (body : A -> M unit) : M unit :=
  match l with
  | [] => ret tt
  | x :: rest => body x ;; for_each rest body
  end.

(* ===================================================================== *)
(** * The [st] module *)
(* ===================================================================== *)

Module st.

(** Putting an element on the page. *)
Definition emit (e : element) : M unit :=
  fun w => (Return tt, mkWorld (session w) (e :: display w) (sent w)).

Definition title (body : string) : M unit := emit (Title body).
Definition markdown (body : value) : M unit := emit (Markdown body).
Definition header (body : string) : M unit := emit (Header body).
Definition subheader (body : string) : M unit := emit (Subheader body).
Definition divider : M unit := emit Divider.
Definition warning (body : string) : M unit := emit (Warning body).
Definition info (body : string) : M unit := emit (Info body).
Definition error (body : string) : M unit := emit (Error body).
Definition metric (label : string) (n : nat) : M unit := emit (Metric label n).
Definition columns (n : nat) : M unit := emit (Columns n).
Definition container : M unit := emit Container.
Definition spinner (body : string) : M unit := emit (Spinner body).
Definition chat_message (name : string) : M unit := emit (ChatMessage name).

(** Widgets.  The last argument is what the front end reports for the
    widget in this run; the call shows the widget and returns it. *)
Definition text_input (label value reported : string) : M string :=
  emit (TextInput label value) ;; ret reported.

Definition selectbox (label : string) (options : list string) (index : nat)
    (reported : string) : M string :=
  emit (Selectbox label options index) ;; ret reported.

Definition button (label : string) (reported : bool) : M bool :=
  emit (Button label) ;; ret reported.

Definition chat_input (placeholder : string) (reported : option string)
    : M (option string) :=
  emit (ChatInput placeholder) ;; ret reported.

(** [st.rerun()]: stops the run. *)
Definition rerun : M unit := raise RerunException.

(** Reading [st.session_state.<name>]; an unset name raises. *)
Definition read {A : Type} (name : string)
    (field : session_state.t -> option A) : M A :=
  fun w =>
    match field (session w) with
    | Some a => (Return a, w)
    | None => (Raise (AttributeError name), w)
    end.

Definition get_messages : M (list Message) :=
  read "messages" session_state.messages.
Definition get_groq_api_key : M string :=
  read "groq_api_key" session_state.groq_api_key.
Definition get_selected_personality : M string :=
  read "selected_personality" session_state.selected_personality.
Definition get_selected_model : M string :=
  read "selected_model" session_state.selected_model.

(** Assigning [st.session_state.<name> = ...]. *)
Definition write (f : session_state.t -> session_state.t) : M unit :=
  fun w => (Return tt, mkWorld (f (session w)) (display w) (sent w)).

Definition set_messages (l : list Message) : M unit :=
  write (fun s =>
    session_state.mk (Some l) (session_state.groq_api_key s)
      (session_state.selected_personality s) (session_state.selected_model s)).
Definition set_groq_api_key (k : string) : M unit :=
  write (fun s =>
    session_state.mk (session_state.messages s) (Some k)
      (session_state.selected_personality s) (session_state.selected_model s)).
Definition set_selected_personality (p : string) : M unit :=
  write (fun s =>
    session_state.mk (session_state.messages s) (session_state.groq_api_key s)
      (Some p) (session_state.selected_model s)).
Definition set_selected_model (m : string) : M unit :=
  write (fun s =>
    session_state.mk (session_state.messages s) (session_state.groq_api_key s)
      (session_state.selected_personality s) (Some m)).

(** [st.session_state.messages.append(m)]. *)
Definition append_message (m : Message) : M unit :=
  l <- get_messages ;; set_messages (l ++ [m]).

(** ["name" in st.session_state]. *)
Definition is_set {A : Type} (field : session_state.t -> option A) : M bool :=
  fun w =>
    (Return (match field (session w) with Some _ => true | None => false end), w).

End st.

(* ===================================================================== *)
(** * The script *)
(* ===================================================================== *)

Module Personality.
Record t : Type := mk {
  description : string;
  system_prompt : string;
  icon : string
}.
End Personality.

(** [PERSONALITIES], lines 16-78, in the order of the dict. *)
Definition PERSONALITIES : list (string * Personality.t) := [
  ("Math Teacher",
   Personality.mk
     "A knowledgeable mathematics teacher who helps with math problems and concepts"
     "You are a helpful Math Teacher. You ONLY answer questions related to mathematics, including:
- Arithmetic, algebra, geometry, calculus, statistics
- Math problem solving and explanations
- Mathematical concepts and theories
- Math homework help

If asked about anything outside of mathematics, politely decline and redirect the conversation back to math topics. Always be encouraging and educational in your responses."
     "🧮");
  ("Doctor",
   Personality.mk
     "A medical professional providing health information and guidance"
     "You are a helpful Medical Doctor. You ONLY answer questions related to health and medicine, including:
- Symptoms and general health information
- Medical conditions (general information only)
- Wellness and prevention tips
- When to seek medical care

IMPORTANT: Always remind users that your advice is for informational purposes only and they should consult with qualified healthcare providers for medical decisions. If asked about anything outside of health and medicine, politely decline and redirect to medical topics."
     "🩺");
  ("Travel Guide",
   Personality.mk
     "An experienced travel expert with tips and destination advice"
     "You are an expert Travel Guide. You ONLY answer questions related to travel, including:
- Destination recommendations and information
- Travel planning and itineraries
- Transportation options
- Accommodation advice
- Local customs and cultures
- Travel tips and safety

If asked about anything outside of travel, politely decline and redirect the conversation back to travel-related topics. Be enthusiastic and helpful about travel experiences."
     "✈️");
  ("Chef",
   Personality.mk
     "A culinary expert specializing in cooking and recipes"
     "You are a professional Chef. You ONLY answer questions related to cooking and food, including:
- Recipes and cooking instructions
- Cooking techniques and methods
- Ingredient substitutions and tips
- Kitchen equipment advice
- Food safety and storage
- Cuisine types and food culture

If asked about anything outside of cooking and food, politely decline and redirect the conversation back to culinary topics. Be passionate and detailed about food and cooking."
     "👨‍🍳");
  ("Tech Support",
   Personality.mk
     "A technical support specialist for devices and software troubleshooting"
     "You are a Tech Support Specialist. You ONLY answer questions related to technology troubleshooting, including:
- Computer and device problems
- Software installation and configuration
- Network connectivity issues
- Hardware troubleshooting
- Operating system help
- Application support

If asked about anything outside of technical support, politely decline and redirect the conversation back to tech-related topics. Be clear, step-by-step, and patient in your technical explanations."
     "💻")
].

(** [GROQ_MODELS], lines 81-88. *)
Definition GROQ_MODELS : list string := [
  "llama-3.1-70b-versatile";
  "llama-3.1-8b-instant";
  "llama-3.2-90b-text-preview";
  "llama-3.2-11b-text-preview";
  "mixtral-8x7b-32768";
  "gemma2-9b-it"
].

(** [init_session_state], lines 90-99. *)
Definition init_session_state : M unit :=
  b <- st.is_set session_state.messages ;;
  when (negb b) (st.set_messages []) ;;
  b <- st.is_set session_state.groq_api_key ;;
  when (negb b) (st.set_groq_api_key "") ;;
  b <- st.is_set session_state.selected_personality ;;
  when (negb b) (st.set_selected_personality "Math Teacher") ;;
  b <- st.is_set session_state.selected_model ;;
  when (negb b) (st.set_selected_model "llama-3.1-70b-versatile").

(** The two fallback replies of [call_groq_api]. *)
Definition error_reply : string :=
  "Sorry, I encountered an error processing your request.".
Definition timeout_reply : string :=
  "Request timed out. Please try again.".

(** The keyword arguments of the [requests.post] call, lines 103-122. *)
Definition build_request (messages : list Message) (api_key model : string)
    : Request.t :=
  let headers := [
    ("Authorization", ("Bearer " ++ api_key)%string);
    ("Content-Type", "application/json")
  ] in
  let data := {|
    Data.model := model;
    Data.messages := messages;
    Data.temperature := 0.7%Q;
    Data.max_tokens := 1024%Z;
    Data.stream := false
  |} in
  {|
    Request.url := "https://api.groq.com/openai/v1/chat/completions";
    Request.headers := headers;
    Request.json := data;
    Request.timeout := 30%Z
  |}.

(** The handlers of the [try] of [call_groq_api], lines 131-136. *)
Definition call_groq_api_except (e : exception) : option (M value) :=
  match e with
  | Timeout _ =>
      Some (st.error "Request timed out. Please try again." ;;
            ret (VStr timeout_reply))
  | _ =>
      if is_Exception e then
        Some (st.error ("Error: " ++ str_of_exception e) ;;
              ret (VStr error_reply))
      else None
  end.

Section Run.

(** What the network does with a request. *)
Variable post : Request.t -> outcome.

(** [requests.post(url, headers=..., json=..., timeout=...)]. *)
Definition requests_post (req : Request.t) : M Response.t :=
  fun w =>
    let w' := mkWorld (session w) (display w) (req :: sent w) in
    match post req with
    | Responds r => (Return r, w')
    | TimesOut msg => (Raise (Timeout msg), w')
    | Fails msg => (Raise (OtherException msg), w')
    end.

(** [response.json()]. *)
Definition response_json (response : Response.t) : M value :=
  match Response.json response with
  | inr v => ret v
  | inl msg => raise (JSONDecodeError msg)
  end.

(** [call_groq_api], lines 101-136. *)
Definition call_groq_api (messages : list Message) (api_key model : string)
    : M value :=
  try_except
    (response <- requests_post (build_request messages api_key model) ;;
     if (Response.status_code response =? 200)%Z then
       result <- response_json response ;;
       choices <- lift (getitem result (KStr "choices")) ;;
       choice <- lift (getitem choices (KInt 0)) ;;
       message <- lift (getitem choice (KStr "message")) ;;
       lift (getitem message (KStr "content"))
     else
       st.error ("API Error: " ++ str_of_Z (Response.status_code response)
                 ++ " - " ++ Response.text response) ;;
       ret (VStr error_reply))
    call_groq_api_except.

(** [clear_chat], lines 138-141. *)
Definition clear_chat : M unit :=
  st.set_messages [] ;;
  st.rerun.

(** What the front end reports for the widgets in this run. *)
Variable ui : widgets.

(** [l.index(x)] as the script calls it: an absent [x] raises. *)
Definition index_of (l : list string) (x : string) : M nat :=
  match list_index l x with
  | Some i => ret i
  | None => raise (ValueError ("'" ++ x ++ "' is not in list"))
  end.

(** [PERSONALITIES[name]]. *)
Definition personality (name : string) : M Personality.t :=
  match dict_get PERSONALITIES name with
  | Some info => ret info
  | None => raise (KeyError ("'" ++ name ++ "'"))
  end.

(** API key input, lines 154-165. *)
Definition api_key_section : M string :=
  value <- st.get_groq_api_key ;;
  api_key <- st.text_input "🔑 Groq API Key" value (api_key_input ui) ;;
  st.set_groq_api_key api_key ;;
  when (negb (truthy api_key))
    (st.warning "⚠️ Please enter your Groq API key to start chatting!" ;;
     st.markdown (VStr "Get your free API key at [Groq Console](https://console.groq.com/)")) ;;
  ret api_key.

(** Model selection, lines 169-177. *)
Definition model_section : M string :=
  st.subheader "🧠 AI Model" ;;
  current <- st.get_selected_model ;;
  index <- index_of GROQ_MODELS current ;;
  selected_model <-
    st.selectbox "Choose AI Model:" GROQ_MODELS index (model_select ui) ;;
  st.set_selected_model selected_model ;;
  ret selected_model.

(** The switch of personality, lines 193-196. *)
Definition switch_personality (selected_personality : string) : M unit :=
  current <- st.get_selected_personality ;;
  when (negb (String.eqb selected_personality current))
    (st.set_selected_personality selected_personality ;;
     st.set_messages []).

(** Personality selection, lines 181-200. *)
Definition personality_section : M string :=
  st.subheader "🎭 Chatbot Personality" ;;
  let personality_options := dict_keys PERSONALITIES in
  current <- st.get_selected_personality ;;
  index <- index_of personality_options current ;;
  selected_personality <-
    st.selectbox "Choose Personality:" personality_options index
      (personality_select ui) ;;
  switch_personality selected_personality ;;
  personality_info <- personality selected_personality ;;
  st.markdown (VStr ("**" ++ Personality.icon personality_info ++ " "
                     ++ selected_personality ++ "**")) ;;
  st.markdown (VStr ("*" ++ Personality.description personality_info ++ "*")) ;;
  ret selected_personality.

(** Clear chat button, lines 204-206. *)
Definition clear_chat_section : M unit :=
  clicked <- st.button "🗑️ Clear Chat" (clear_chat_button ui) ;;
  when clicked clear_chat.

(** Number of the entries of a transcript with a given role. *)
Definition count_role (r : string) (messages : list Message) : nat :=
  List.length (filter (fun msg => String.eqb (role msg) r) messages).

(** Chat statistics, lines 208-214. *)
Definition chat_stats_section : M unit :=
  messages <- st.get_messages ;;
  when (negb (Nat.eqb (List.length messages) 0))
    (st.subheader "📊 Chat Stats" ;;
     let user_messages := count_role "user" messages in
     let assistant_messages := count_role "assistant" messages in
     st.metric "User Messages" user_messages ;;
     st.metric "AI Responses" assistant_messages).

(** The sidebar, lines 151-214; it ends with the three selections the
    rest of [main] uses. *)
Definition sidebar : M (string * string * string) :=
  st.header "⚙️ Configuration" ;;
  api_key <- api_key_section ;;
  st.divider ;;
  selected_model <- model_section ;;
  st.divider ;;
  selected_personality <- personality_section ;;
  st.divider ;;
  clear_chat_section ;;
  chat_stats_section ;;
  ret (api_key, selected_model, selected_personality).

(** Display current configuration, lines 229-236. *)
Definition configuration_section (selected_model selected_personality : string)
    : M unit :=
  st.columns 3 ;;
  st.info ("🤖 **Model:** " ++ selected_model) ;;
  st.info ("🎭 **Personality:** " ++ selected_personality) ;;
  messages <- st.get_messages ;;
  st.info ("💬 **Messages:** " ++ str_of_nat (List.length messages)).

(** Display chat messages, lines 238-245. *)
Definition chat_container : M unit :=
  st.container ;;
  messages <- st.get_messages ;;
  for_each messages (fun message =>
    st.chat_message (role message) ;;
    st.markdown (content message)).

(** Prepare messages for API call, lines 255-261: the system message of
    the personality followed by the last 20 entries of the transcript. *)
Definition prepare_api_messages (personality_prompt : string)
    (messages : list Message) : list Message :=
  let api_messages := [mkMessage "system" (VStr personality_prompt)] in
  let recent_messages := slice_from (-20) messages in
  api_messages ++ recent_messages.

(** The body of [if prompt := st.chat_input(...)], lines 249-270. *)
Definition chat_turn (api_key selected_model selected_personality prompt : string)
    : M unit :=
  st.append_message (mkMessage "user" (VStr prompt)) ;;
  st.chat_message "user" ;;
  st.markdown (VStr prompt) ;;
  personality_info <- personality selected_personality ;;
  let personality_prompt := Personality.system_prompt personality_info in
  messages <- st.get_messages ;;
  let api_messages := prepare_api_messages personality_prompt messages in
  st.chat_message "assistant" ;;
  st.spinner (selected_personality ++ " is thinking...") ;;
  response <- call_groq_api api_messages api_key selected_model ;;
  st.markdown response ;;
  st.append_message (mkMessage "assistant" response).

(** Footer, lines 272-283. *)
Definition footer : M unit :=
  st.markdown (VStr "---") ;;
  st.markdown (VStr "
        <div style='text-align: center; color: #666;'>
            <p>Built with ❤️ using Streamlit and Groq AI | 
            <a href='https://github.com' target='_blank'>View Source</a> | 
            <a href='https://console.groq.com/' target='_blank'>Get Groq API Key</a></p>
        </div>
        ").

(** The main chat interface, lines 216-283, given the selections of the
    sidebar. *)
Definition chat_interface (api_key selected_model selected_personality : string)
    : M unit :=
  if negb (truthy api_key) then
    st.info "👈 Please enter your Groq API key in the sidebar to start chatting!" ;;
    st.markdown (VStr "
        ### How to get your Groq API key:
        1. Visit [Groq Console](https://console.groq.com/)
        2. Sign up or log in to your account
        3. Navigate to the API Keys section
        4. Create a new API key
        5. Copy and paste it in the sidebar
        ")
  else
    configuration_section selected_model selected_personality ;;
    chat_container ;;
    prompt <-
      st.chat_input ("Ask " ++ selected_personality ++ " a question...")
        (chat_input_submit ui) ;;
    match prompt with
    | Some prompt =>
        when (truthy prompt)
          (chat_turn api_key selected_model selected_personality prompt)
    | None => ret tt
    end ;;
    footer.

(** [main], lines 143-283. *)
Definition main : M unit :=
  init_session_state ;;
  st.title "🤖 AI Personality Chatbot" ;;
  st.markdown (VStr "Chat with AI personalities powered by Groq! Each personality has specific expertise and will only answer questions in their domain.") ;;
  selections <- sidebar ;;
  let '(api_key, selected_model, selected_personality) := selections in
  chat_interface api_key selected_model selected_personality.

End Run.

(* ===================================================================== *)
(** * Vocabulary of the properties *)
(* ===================================================================== *)

(** The transcript of a session: its [messages], empty while unset. *)
Definition transcript (s : session_state.t) : list Message :=
  match session_state.messages s with
  | Some l => l
  | None => []
  end.

(** The values [init_session_state] leaves in the other three keys. *)
Definition stored_key (s : session_state.t) : string :=
  match session_state.groq_api_key s with
  | Some k => k
  | None => ""
  end.

Definition current_personality (s : session_state.t) : string :=
  match session_state.selected_personality s with
  | Some p => p
  | None => "Math Teacher"
  end.

Definition current_model (s : session_state.t) : string :=
  match session_state.selected_model s with
  | Some m => m
  | None => "llama-3.1-70b-versatile"
  end.

Definition is_chat_input (e : element) : bool :=
  match e with
  | ChatInput _ => true
  | _ => false
  end.

(** A property of the transcript and of the two logs, as a property of
    the world. *)
Definition inv (I : list Message -> list element -> list Request.t -> Prop)
    (w : world) : Prop :=
  I (transcript (session w)) (display w) (sent w).

(** Partial-correctness triples with a postcondition for the normal
    return and one for a raised exception. *)
Definition hoare {A : Type} (P : world -> Prop) (c : M A)
    (Q : A -> world -> Prop) (E : exception -> world -> Prop) : Prop :=
  forall w, P w ->
    match c w with
    | (Return a, w') => Q a w'
    | (Raise e, w') => E e w'
    end.

(** A computation keeps a property when the property holds after it,
    however it ends. *)
Definition keeps {A : Type} (P : world -> Prop) (c : M A) : Prop :=
  hoare P c (fun _ => P) (fun _ => P).

(** A property of the transcript and of the requests sent, whatever is
    shown. *)
Definition whatever_shown (J : list Message -> list Request.t -> Prop)
    : list Message -> list element -> list Request.t -> Prop :=
  fun T _ s => J T s.

(** A computation that only shows elements. *)
Definition display_only {A : Type} (c : M A) : Prop :=
  forall w, exists r d', c w = (r, mkWorld (session w) d' (sent w)).

(** [c], started in [w], returns [a] with session [ss] and requests [s],
    whatever it shows. *)
Definition returns {A : Type} (c : M A) (w : world) (a : A)
    (ss : session_state.t) (s : list Request.t) : Prop :=
  exists d', c w = (Return a, mkWorld ss d' s).

(** A transcript made of exchanges: a user entry, then an assistant
    entry, and so on. *)
Fixpoint well_formed (T : list Message) : bool :=
  match T with
  | [] => true
  | u :: a :: rest =>
      String.eqb (role u) "user" && String.eqb (role a) "assistant"
      && well_formed rest
  | _ => false
  end.

(** The sessions a user can get to: the empty session of the start, and
    the session left by a run of [main], with any widgets and any
    network, from a session the user could get to; it does not matter how
    the run ended or what was on the page. *)
Inductive reachable : session_state.t -> Prop :=
| reachable_start : reachable session_state.empty
| reachable_run (post : Request.t -> outcome) (ui : widgets) (w : world) :
    reachable (session w) -> reachable (session (snd (main post ui w))).

(** Since the world [w0]: nothing was sent, what was shown holds no chat
    input, and the transcript is no longer than it was. *)
Definition quiet_since (w0 : world)
    (T : list Message) (d : list element) (s : list Request.t) : Prop :=
  s = sent w0 /\
  (exists shown,
     d = shown ++ display w0 /\
     Forall (fun e => is_chat_input e = false) shown) /\
  (List.length T <= List.length (transcript (session w0)))%nat.

(** The four fixed parameters of a request. *)
Definition fixed_parameters (req : Request.t) : Prop :=
  Data.temperature (Request.json req) = 0.7%Q /\
  Data.max_tokens (Request.json req) = 1024%Z /\
  Data.stream (Request.json req) = false /\
  Request.timeout req = 30%Z.

(** The content of the message of the first choice of a decoded body, as
    the specification names the reply of a successful call. *)
Definition first_choice_content (result : value) : exception + value :=
  match getitem result (KStr "choices") with
  | inl e => inl e
  | inr choices =>
      match getitem choices (KInt 0) with
      | inl e => inl e
      | inr choice =>
          match getitem choice (KStr "message") with
          | inl e => inl e
          | inr message => getitem message (KStr "content")
          end
      end
  end.

(** Since the requests [s0]: every request sent has the fixed
    parameters. *)
Definition fixed_since (s0 : list Request.t)
    (T : list Message) (s : list Request.t) : Prop :=
  exists new, s = new ++ s0 /\ Forall fixed_parameters new.

(** The widgets [ui] with another key typed in. *)
Definition with_key (ui : widgets) (api_key : string) : widgets :=
  mkWidgets api_key (model_select ui) (personality_select ui)
    (clear_chat_button ui) (chat_input_submit ui).

(** A session at start, a front end that reports a key, the default
    selections and the prompt ["hi"], and three networks. *)
Definition start : world := mkWorld session_state.empty [] [].

Definition asks_hi : widgets :=
  mkWidgets "gsk" "llama-3.1-70b-versatile" "Math Teacher" false (Some "hi").

Definition answers (reply : value) : Request.t -> outcome :=
  fun _ =>
    Responds
      (Response.mk 200 ""
         (inr (VDict [("choices",
                       VList [VDict [("message",
                                      VDict [("role", VStr "assistant");
                                             ("content", reply)])]])]))).

Definition refuses : Request.t -> outcome :=
  fun _ => Responds (Response.mk 401 "Invalid API Key" (inl "Expecting value")).

Definition hangs : Request.t -> outcome :=
  fun _ => TimesOut "Read timed out. (read timeout=30)".

(** [c], started in [w], raises [e] with session [ss] and requests [s],
    whatever it shows. *)
Definition raises {A : Type} (c : M A) (w : world) (e : exception)
    (ss : session_state.t) (s : list Request.t) : Prop :=
  exists d', c w = (@Raise A e, mkWorld ss d' s).

(** The selections stored in a session, or their defaults, are options
    of the two selectboxes. *)
Definition valid (s : session_state.t) : Prop :=
  In (current_model s) GROQ_MODELS /\
  In (current_personality s) (dict_keys PERSONALITIES).

(** The front end reports options of the two selectboxes. *)
Definition listed (ui : widgets) : Prop :=
  In (model_select ui) GROQ_MODELS /\
  In (personality_select ui) (dict_keys PERSONALITIES).

(** A prompt that is not empty is submitted. *)
Definition prompt_submitted (ui : widgets) : bool :=
  match chat_input_submit ui with
  | Some prompt => truthy prompt
  | None => false
  end.

(** The run gets to the body of [if prompt := st.chat_input(...)]: the
    clear button is not pressed, the key is not empty and a prompt is
    submitted. *)
Definition takes_turn (ui : widgets) : bool :=
  negb (clear_chat_button ui) && truthy (api_key_input ui) && prompt_submitted ui.

(** The transcript the sidebar leaves when the clear button is not
    pressed: the one it found, emptied if the personality is switched. *)
Definition kept_transcript (ui : widgets) (s : session_state.t) : list Message :=
  if String.eqb (personality_select ui) (current_personality s)
  then transcript s else [].

(** The sessions a user gets to when the front end reports options of
    the selectboxes in every run. *)
Inductive visited : session_state.t -> Prop :=
| visited_start : visited session_state.empty
| visited_run (post : Request.t -> outcome) (ui : widgets) (w : world) :
    visited (session w) -> listed ui ->
    visited (session (snd (main post ui w))).

(** The reply of a call that succeeds: the status is 200, the body
    decodes and has the content of the first choice. *)
Definition success (o : outcome) : option value :=
  match o with
  | Responds r =>
      if (Response.status_code r =? 200)%Z then
        match Response.json r with
        | inr result =>
            match first_choice_content result with
            | inr reply => Some reply
            | inl _ => None
            end
        | inl _ => None
        end
      else None
  | TimesOut _ => None
  | Fails _ => None
  end.

(** What [chat_container] shows for one entry of the transcript, newest
    first. *)
Definition shown_entry (m : Message) : list element :=
  [Markdown (content m); ChatMessage (role m)].

(** The warning of the sidebar, line 164, and the worlds in which it is
    on the page. *)
Definition key_warning : element :=
  Warning "⚠️ Please enter your Groq API key to start chatting!".

Definition warning_shown
    : list Message -> list element -> list Request.t -> Prop :=
  fun _ d _ => In key_warning d.

(* ===================================================================== *)
(** * Rules for triples *)
(* ===================================================================== *)

Lemma hoare_ret {A : Type} (P : world -> Prop) (a : A)
    (Q : A -> world -> Prop) E :
  (forall w, P w -> Q a w) -> hoare P (ret a) Q E.
Proof. intros H w Hw. cbn. auto. Qed.

Lemma hoare_bind {A B : Type} P (c : M A) (k : A -> M B) Q R E :
  hoare P c Q E ->
  (forall a, hoare (Q a) (k a) R E) ->
  hoare P (bind c k) R E.
Proof.
  intros Hc Hk w Hw. unfold bind. specialize (Hc w Hw).
  destruct (c w) as [[a | e] w']; [apply (Hk a w' Hc) | exact Hc].
Qed.

Lemma hoare_weaken {A : Type} (P P' : world -> Prop) (c : M A)
    (Q Q' : A -> world -> Prop) (E E' : exception -> world -> Prop) :
  hoare P c Q E ->
  (forall w, P' w -> P w) ->
  (forall a w, Q a w -> Q' a w) ->
  (forall e w, E e w -> E' e w) ->
  hoare P' c Q' E'.
Proof.
  intros H HP HQ HE w Hw. specialize (H w (HP w Hw)).
  destruct (c w) as [[a | e] w']; auto.
Qed.

Lemma hoare_when (P : world -> Prop) (b : bool) (body : M unit)
    (Q : unit -> world -> Prop) E :
  (b = true -> hoare P body Q E) ->
  (b = false -> forall w, P w -> Q tt w) ->
  hoare P (when b body) Q E.
Proof.
  destruct b; cbn; intros H1 H2; [auto | apply hoare_ret; auto].
Qed.

(** A fact about the returned value is carried into the continuation. *)
Lemma hoare_bind_fact {A B : Type} (P : world -> Prop) (F : A -> Prop)
    (c : M A) (k : A -> M B) R E :
  hoare P c (fun a w => P w /\ F a) E ->
  (forall a, F a -> hoare P (k a) R E) ->
  hoare P (bind c k) R E.
Proof.
  intros Hc Hk. eapply hoare_bind; [exact Hc |].
  intros a w [Hw Ha]. exact (Hk a Ha w Hw).
Qed.

(** Sequencing under an invariant. *)
Lemma hoare_seq {A B : Type} (P : world -> Prop) (c : M A) (k : A -> M B)
    R E :
  hoare P c (fun _ => P) E ->
  (forall a, hoare P (k a) R E) ->
  hoare P (bind c k) R E.
Proof. intros Hc Hk. eapply hoare_bind; [exact Hc | exact Hk]. Qed.

#[local] Arguments list_index : simpl never.
#[local] Arguments dict_get : simpl never.
#[local] Arguments str_of_nat : simpl never.
#[local] Arguments str_of_Z : simpl never.
#[local] Arguments String.append : simpl never.

(* ===================================================================== *)
(** * Properties kept by everything but the chat interface *)
(* ===================================================================== *)

(** The sidebar shows no chat input, sends nothing, and leaves the
    transcript as it is or empties it.  Every property [I] that survives
    these steps holds after the sidebar, and after the whole of [main]
    when the key is empty. *)
Section Quiet.

Variable post : Request.t -> outcome.
Variable ui : widgets.
Variable I : list Message -> list element -> list Request.t -> Prop.
Hypothesis I_emit :
  forall T d s e, is_chat_input e = false -> I T d s -> I T (e :: d) s.
Hypothesis I_clear : forall T d s, I T d s -> I [] d s.

Lemma init_session_state_keeps : keeps (inv I) init_session_state.
Proof.
  intros [[m k p md] d s] Hw. unfold inv in *.
  destruct m, k, p, md; cbn in *; auto.
Qed.

Lemma emit_keeps e : is_chat_input e = false -> keeps (inv I) (st.emit e).
Proof. intros He w Hw. cbn. apply I_emit; assumption. Qed.

Lemma api_key_section_keeps :
  hoare (inv I) (api_key_section ui)
    (fun a w => inv I w /\ a = api_key_input ui) (fun _ => inv I).
Proof.
  intros [[m k p md] d s] Hw. unfold inv in *.
  destruct k; cbn in *; auto.
  destruct (truthy (api_key_input ui)); cbn; auto 10.
Qed.

Lemma model_section_keeps : keeps (inv I) (model_section ui).
Proof.
  intros [[m k p md] d s] Hw. unfold inv in *.
  destruct md as [current |]; cbn in *; auto.
  unfold index_of. destruct (list_index GROQ_MODELS current); cbn; auto.
Qed.

Lemma switch_personality_keeps selected_personality :
  keeps (inv I) (switch_personality selected_personality).
Proof.
  intros [[m k p md] d s] Hw. unfold inv in *.
  destruct p as [current |]; cbn in *; auto.
  destruct (String.eqb selected_personality current); cbn; eauto.
Qed.

Lemma personality_keeps name :
  hoare (inv I) (personality name)
    (fun _ w => inv I w /\ dict_get PERSONALITIES name <> None)
    (fun _ => inv I).
Proof.
  intros w Hw. unfold personality.
  destruct (dict_get PERSONALITIES name); cbn; [split; [exact Hw | discriminate] | exact Hw].
Qed.

Lemma personality_section_keeps :
  hoare (inv I) (personality_section ui)
    (fun a w => inv I w /\ dict_get PERSONALITIES a <> None)
    (fun _ => inv I).
Proof.
  unfold personality_section.
  apply hoare_seq; [apply emit_keeps; reflexivity | intros _].
  apply hoare_seq; [intros w Hw; unfold st.get_selected_personality, st.read;
                    destruct (session_state.selected_personality (session w)); exact Hw
                   | intros current].
  apply hoare_seq; [intros w Hw; unfold index_of;
                    destruct (list_index _ current); exact Hw | intros index].
  eapply hoare_bind with (Q := fun a w => inv I w /\ a = personality_select ui).
  { intros w Hw. cbn. split; [apply I_emit; [reflexivity | exact Hw] | reflexivity]. }
  intros selected_personality.
  eapply hoare_bind with (Q := fun _ w => inv I w).
  { eapply hoare_weaken; [apply switch_personality_keeps | | |]; cbn; intuition. }
  intros _.
  eapply hoare_bind; [apply personality_keeps |].
  intros info w [Hw Hinfo]. cbn. split; [| exact Hinfo].
  apply I_emit; [reflexivity |]. apply I_emit; [reflexivity |]. exact Hw.
Qed.

Lemma clear_chat_section_keeps : keeps (inv I) (clear_chat_section ui).
Proof.
  intros [[m k p md] d s] Hw. unfold inv in *.
  cbn. destruct (clear_chat_button ui); cbn in *; eauto.
Qed.

Lemma chat_stats_section_keeps : keeps (inv I) chat_stats_section.
Proof.
  intros [[m k p md] d s] Hw. unfold inv in *.
  destruct m as [messages |]; cbn in *; auto.
  destruct (Nat.eqb (List.length messages) 0); cbn; auto.
Qed.

Lemma sidebar_keeps :
  hoare (inv I) (sidebar ui)
    (fun sel w =>
       inv I w /\ fst (fst sel) = api_key_input ui /\
       dict_get PERSONALITIES (snd sel) <> None)
    (fun _ => inv I).
Proof.
  unfold sidebar.
  apply hoare_seq; [apply emit_keeps; reflexivity | intros _].
  apply hoare_bind_fact with (F := fun a => a = api_key_input ui);
    [apply api_key_section_keeps | intros api_key Hkey].
  apply hoare_seq; [apply emit_keeps; reflexivity | intros _].
  apply hoare_seq; [apply model_section_keeps | intros selected_model].
  apply hoare_seq; [apply emit_keeps; reflexivity | intros _].
  apply hoare_bind_fact with (F := fun a => dict_get PERSONALITIES a <> None);
    [apply personality_section_keeps | intros selected_personality Hp].
  apply hoare_seq; [apply emit_keeps; reflexivity | intros _].
  apply hoare_seq; [apply clear_chat_section_keeps | intros _].
  apply hoare_seq; [apply chat_stats_section_keeps | intros _].
  apply hoare_ret. cbn. auto.
Qed.

(** With an empty key the chat interface is the two lines of help. *)
Lemma chat_interface_blocked selected_model selected_personality :
  keeps (inv I) (chat_interface post ui "" selected_model selected_personality).
Proof.
  intros w Hw. cbn. apply I_emit; [reflexivity |].
  apply I_emit; [reflexivity | exact Hw].
Qed.

Lemma main_blocked :
  api_key_input ui = "" -> keeps (inv I) (main post ui).
Proof.
  intros Hempty. unfold main.
  apply hoare_seq; [apply init_session_state_keeps | intros _].
  apply hoare_seq; [apply emit_keeps; reflexivity | intros _].
  apply hoare_seq; [apply emit_keeps; reflexivity | intros _].
  eapply hoare_bind; [apply sidebar_keeps |].
  intros [[api_key selected_model] selected_personality]. cbn [fst snd].
  intros w (Hw & Hkey & _). subst api_key. rewrite Hempty.
  apply chat_interface_blocked. exact Hw.
Qed.

End Quiet.

(* ===================================================================== *)
(** * The completion call *)
(* ===================================================================== *)

Lemma getitem_raises_Exception v k e :
  getitem v k = inl e -> is_Exception e = true.
Proof.
  unfold getitem. intros H.
  repeat match type of H with
         | context [match ?x with _ => _ end] => destruct x
         end; inversion H; reflexivity.
Qed.

(** Every [Exception] is handled by one of the two clauses, and the
    handler shows an error and returns a text. *)
Lemma call_groq_api_except_handles e :
  is_Exception e = true ->
  exists body reply,
    call_groq_api_except e = Some (st.error body ;; ret (VStr reply)).
Proof.
  destruct e; cbn; intros H; try discriminate; eauto.
Qed.

Section Call.

Variable post : Request.t -> outcome.

(** The call sends one request, shows at most an error, leaves the
    session alone and always returns a reply. *)
Lemma call_groq_api_returns messages api_key model w :
  exists reply d',
    call_groq_api post messages api_key model w =
      (Return reply,
       mkWorld (session w) d' (build_request messages api_key model :: sent w)).
Proof.
  unfold call_groq_api, try_except, bind, requests_post.
  set (req := build_request messages api_key model).
  assert (Hh : forall e w1, is_Exception e = true ->
            exists reply d',
              match call_groq_api_except e with
              | Some h => h w1
              | None => (Raise e, w1)
              end = (Return reply, mkWorld (session w1) d' (sent w1))).
  { intros e w1 He. destruct (call_groq_api_except_handles e He) as (b & r & ->).
    cbn. do 2 eexists; reflexivity. }
  destruct (post req) as [r | msg | msg].
  - destruct (Response.status_code r =? 200)%Z.
    + unfold response_json, lift, raise.
      destruct (Response.json r) as [msg | result]; cbv beta iota;
        [apply (Hh (JSONDecodeError msg)); reflexivity |].
      unfold ret at 1; cbv beta iota.
      destruct (getitem result _) as [e | choices] eqn:E1; cbv beta iota;
        [apply Hh; eapply getitem_raises_Exception; eassumption |].
      unfold ret at 1; cbv beta iota.
      destruct (getitem choices _) as [e | choice] eqn:E2; cbv beta iota;
        [apply Hh; eapply getitem_raises_Exception; eassumption |].
      unfold ret at 1; cbv beta iota.
      destruct (getitem choice _) as [e | message] eqn:E3; cbv beta iota;
        [apply Hh; eapply getitem_raises_Exception; eassumption |].
      unfold ret at 1; cbv beta iota.
      destruct (getitem message _) as [e | reply] eqn:E4; cbv beta iota;
        [apply Hh; eapply getitem_raises_Exception; eassumption |].
      do 2 eexists; reflexivity.
    + do 2 eexists; reflexivity.
  - apply (Hh (Timeout msg)); reflexivity.
  - apply (Hh (OtherException msg)); reflexivity.
Qed.

End Call.

Section CallResults.

Variable post : Request.t -> outcome.
Variables (messages : list Message) (api_key model : string).

(** Status other than 200: the error is shown and the generic fallback
    is the reply. *)
Lemma call_groq_api_status r w :
  post (build_request messages api_key model) = Responds r ->
  Response.status_code r <> 200%Z ->
  call_groq_api post messages api_key model w =
    (Return (VStr error_reply),
     mkWorld (session w)
       (Error ("API Error: " ++ str_of_Z (Response.status_code r) ++ " - "
               ++ Response.text r) :: display w)
       (build_request messages api_key model :: sent w)).
Proof.
  intros Hpost Hstatus.
  unfold call_groq_api, try_except, bind, requests_post.
  rewrite Hpost.
  destruct (Z.eqb_spec (Response.status_code r) 200) as [Heq | _];
    [contradiction | reflexivity].
Qed.

(** Timeout: the timeout text is shown and is the reply. *)
Lemma call_groq_api_timeout msg w :
  post (build_request messages api_key model) = TimesOut msg ->
  call_groq_api post messages api_key model w =
    (Return (VStr timeout_reply),
     mkWorld (session w) (Error "Request timed out. Please try again." :: display w)
       (build_request messages api_key model :: sent w)).
Proof.
  intros Hpost.
  unfold call_groq_api, try_except, bind, requests_post.
  rewrite Hpost. reflexivity.
Qed.

(** Any other exception of the transport: its text is shown and the
    generic fallback is the reply. *)
Lemma call_groq_api_fails msg w :
  post (build_request messages api_key model) = Fails msg ->
  call_groq_api post messages api_key model w =
    (Return (VStr error_reply),
     mkWorld (session w) (Error ("Error: " ++ msg) :: display w)
       (build_request messages api_key model :: sent w)).
Proof.
  intros Hpost.
  unfold call_groq_api, try_except, bind, requests_post.
  rewrite Hpost. reflexivity.
Qed.

(** Status 200 and a body with [choices[0].message.content]: that
    content is the reply and nothing is shown. *)
Lemma call_groq_api_content r result choices choice message reply w :
  post (build_request messages api_key model) = Responds r ->
  Response.status_code r = 200%Z ->
  Response.json r = inr result ->
  getitem result (KStr "choices") = inr choices ->
  getitem choices (KInt 0) = inr choice ->
  getitem choice (KStr "message") = inr message ->
  getitem message (KStr "content") = inr reply ->
  call_groq_api post messages api_key model w =
    (Return reply,
     mkWorld (session w) (display w)
       (build_request messages api_key model :: sent w)).
Proof.
  intros Hpost Hstatus Hjson H1 H2 H3 H4.
  unfold call_groq_api, try_except, bind, requests_post, response_json.
  rewrite Hpost, Hstatus, Hjson. cbv beta iota.
  change (200 =? 200)%Z with true. cbv beta iota. unfold ret at 1. cbv beta iota.
  rewrite H1. unfold lift at 1, ret at 1. cbv beta iota.
  rewrite H2. unfold lift at 1, ret at 1. cbv beta iota.
  rewrite H3. unfold lift at 1, ret at 1. cbv beta iota.
  rewrite H4. reflexivity.
Qed.

End CallResults.

(** The reply depends on nothing but what the network does with the
    request: not on the world the call starts from, and on the request
    only through the outcome. *)
Lemma call_groq_api_reply_of_outcome post1 post2 messages1 messages2
    api_key1 api_key2 model1 model2 w1 w2 :
  post1 (build_request messages1 api_key1 model1) =
    post2 (build_request messages2 api_key2 model2) ->
  fst (call_groq_api post1 messages1 api_key1 model1 w1) =
  fst (call_groq_api post2 messages2 api_key2 model2 w2).
Proof.
  intros Hpost.
  unfold call_groq_api, try_except, bind, requests_post. rewrite Hpost.
  assert (Hh : forall e u1 u2,
            fst match call_groq_api_except e with
                | Some h => h u1
                | None => (Raise e, u1)
                end =
            fst match call_groq_api_except e with
                | Some h => h u2
                | None => (Raise e, u2)
                end).
  { intros e u1 u2. destruct e; reflexivity. }
  destruct (post2 _) as [r | msg | msg]; [| apply Hh | apply Hh].
  destruct (Response.status_code r =? 200)%Z; [| reflexivity].
  unfold response_json, lift, raise.
  destruct (Response.json r) as [msg | result]; cbv beta iota; [apply Hh |].
  unfold ret at 1 6; cbv beta iota.
  destruct (getitem result _) as [e | choices]; cbv beta iota; [apply Hh |].
  unfold ret at 1 5; cbv beta iota.
  destruct (getitem choices _) as [e | choice]; cbv beta iota; [apply Hh |].
  unfold ret at 1 4; cbv beta iota.
  destruct (getitem choice _) as [e | message]; cbv beta iota; [apply Hh |].
  unfold ret at 1 3; cbv beta iota.
  destruct (getitem message _) as [e | reply]; cbv beta iota; [apply Hh |].
  reflexivity.
Qed.

Lemma call_groq_api_reply_fixed post messages api_key model w1 w2 :
  fst (call_groq_api post messages api_key model w1) =
  fst (call_groq_api post messages api_key model w2).
Proof. apply call_groq_api_reply_of_outcome. reflexivity. Qed.

(* ===================================================================== *)
(** * One turn of the conversation *)
(* ===================================================================== *)

Section TurnRuns.

Variable post : Request.t -> outcome.

(** With the transcript set and the personality known, [chat_turn]
    returns; it sends the request assembled from the transcript with the
    prompt appended, and stores the prompt and then the reply. *)
Lemma chat_turn_runs api_key selected_model selected_personality prompt info w T :
  session_state.messages (session w) = Some T ->
  dict_get PERSONALITIES selected_personality = Some info ->
  let user := mkMessage "user" (VStr prompt) in
  let api_messages :=
    prepare_api_messages (Personality.system_prompt info) (T ++ [user]) in
  exists reply d',
    (forall w1,
       fst (call_groq_api post api_messages api_key selected_model w1) =
       Return reply) /\
    chat_turn post api_key selected_model selected_personality prompt w =
      (Return tt,
       mkWorld
         (session_state.mk
            (Some ((T ++ [user]) ++ [mkMessage "assistant" reply]))
            (session_state.groq_api_key (session w))
            (session_state.selected_personality (session w))
            (session_state.selected_model (session w)))
         d'
         (build_request api_messages api_key selected_model :: sent w)).
Proof.
  intros HT Hinfo user api_messages.
  destruct w as [[m k p md] d s]. cbn in HT. subst m.
  set (w1 := mkWorld (session_state.mk (Some (T ++ [user])) k p md)
               (Spinner (selected_personality ++ " is thinking...")
                :: ChatMessage "assistant" :: Markdown (VStr prompt)
                :: ChatMessage "user" :: d) s).
  destruct (call_groq_api_returns post api_messages api_key selected_model w1)
    as (reply & d' & Hcall).
  exists reply, (Markdown reply :: d'). split.
  - intros w2.
    rewrite (call_groq_api_reply_fixed post api_messages api_key selected_model w2 w1).
    rewrite Hcall. reflexivity.
  - unfold chat_turn, personality.
    cbn -[call_groq_api prepare_api_messages]. rewrite Hinfo.
    cbn -[call_groq_api prepare_api_messages].
    fold user. fold api_messages. fold w1. unfold bind at 1.
    rewrite Hcall. reflexivity.
Qed.

End TurnRuns.

(* ===================================================================== *)
(** * Properties kept by every run of [main] *)
(* ===================================================================== *)

Lemma display_only_ret {A : Type} (a : A) : display_only (ret a).
Proof. intros [ss d s]. exists (Return a), d. reflexivity. Qed.

Lemma display_only_emit e : display_only (st.emit e).
Proof. intros w. exists (Return tt), (e :: display w). reflexivity. Qed.

Lemma display_only_read {A : Type} name (field : session_state.t -> option A) :
  display_only (st.read name field).
Proof.
  intros [ss d s]. unfold st.read. cbn.
  destruct (field ss); eexists; exists d; reflexivity.
Qed.

Lemma display_only_bind {A B : Type} (c : M A) (k : A -> M B) :
  display_only c -> (forall a, display_only (k a)) -> display_only (bind c k).
Proof.
  intros Hc Hk w. unfold bind.
  destruct (Hc w) as (r & d1 & ->). destruct r as [a | e].
  - destruct (Hk a (mkWorld (session w) d1 (sent w))) as (r2 & d2 & ->).
    exists r2, d2. reflexivity.
  - exists (Raise e), d1. reflexivity.
Qed.

Lemma display_only_for_each {A : Type} (l : list A) (body : A -> M unit) :
  (forall x, display_only (body x)) -> display_only (for_each l body).
Proof.
  intros Hbody. induction l as [| x rest IH]; cbn [for_each].
  - apply display_only_ret.
  - apply display_only_bind; [apply Hbody | intros _; exact IH].
Qed.

Create HintDb display discriminated.
#[local] Hint Resolve display_only_ret display_only_emit display_only_read
  display_only_for_each : display.
#[local] Hint Extern 2 (display_only (bind _ _)) =>
  apply display_only_bind; [| intro] : display.

Lemma configuration_section_display_only selected_model selected_personality :
  display_only (configuration_section selected_model selected_personality).
Proof.
  unfold configuration_section, st.columns, st.info, st.get_messages.
  auto 10 with display.
Qed.

Lemma chat_container_display_only : display_only chat_container.
Proof.
  unfold chat_container, st.container, st.get_messages.
  repeat (apply display_only_bind; [auto with display | intro]).
  apply display_only_for_each. intros message.
  unfold st.chat_message, st.markdown. auto with display.
Qed.

Lemma chat_input_display_only placeholder reported :
  display_only (st.chat_input placeholder reported).
Proof. unfold st.chat_input. auto with display. Qed.

Lemma footer_display_only : display_only footer.
Proof. unfold footer, st.markdown. auto with display. Qed.

(** A property [J] of the transcript and of the requests sent that
    survives emptying the transcript and one turn holds after [main],
    however the run ends. *)
Section Turn.

Variable post : Request.t -> outcome.
Variable ui : widgets.
Variable J : list Message -> list Request.t -> Prop.
Hypothesis J_clear : forall T s, J T s -> J [] s.
Hypothesis J_turn :
  forall T s prompt reply messages api_key model,
    J T s ->
    J ((T ++ [mkMessage "user" (VStr prompt)]) ++ [mkMessage "assistant" reply])
      (build_request messages api_key model :: s).

Lemma display_only_keeps {A : Type} (c : M A) :
  display_only c -> keeps (inv (whatever_shown J)) c.
Proof.
  intros Hc w Hw. destruct (Hc w) as (r & d' & ->).
  destruct r; exact Hw.
Qed.

Lemma chat_turn_keeps api_key selected_model selected_personality prompt :
  dict_get PERSONALITIES selected_personality <> None ->
  keeps (inv (whatever_shown J))
    (chat_turn post api_key selected_model selected_personality prompt).
Proof.
  intros Hp w Hw.
  destruct (dict_get PERSONALITIES selected_personality) as [info |] eqn:Hinfo;
    [clear Hp | contradiction].
  destruct (session_state.messages (session w)) as [T |] eqn:HT.
  - destruct (chat_turn_runs post api_key selected_model selected_personality
                prompt info w T HT Hinfo)
      as (reply & d' & _ & ->).
    unfold inv, whatever_shown in *. cbn. unfold transcript in Hw. rewrite HT in Hw.
    apply J_turn. exact Hw.
  - unfold chat_turn, st.append_message, st.get_messages, st.read, bind.
    rewrite HT. exact Hw.
Qed.

Lemma chat_interface_keeps api_key selected_model selected_personality :
  dict_get PERSONALITIES selected_personality <> None ->
  keeps (inv (whatever_shown J))
    (chat_interface post ui api_key selected_model selected_personality).
Proof.
  intros Hp. unfold chat_interface.
  destruct (negb (truthy api_key)).
  - apply display_only_keeps. unfold st.info, st.markdown. auto with display.
  - apply hoare_seq;
      [apply display_only_keeps, configuration_section_display_only | intros _].
    apply hoare_seq;
      [apply display_only_keeps, chat_container_display_only | intros _].
    apply hoare_seq;
      [apply display_only_keeps, chat_input_display_only | intros prompt].
    apply hoare_seq; [| intros _; apply display_only_keeps, footer_display_only].
    destruct prompt as [prompt |].
    + apply hoare_when; [intros _; apply chat_turn_keeps; exact Hp | auto].
    + apply hoare_ret. auto.
Qed.

Lemma main_keeps : keeps (inv (whatever_shown J)) (main post ui).
Proof.
  assert (Hemit : forall T d s e,
             is_chat_input e = false ->
             whatever_shown J T d s -> whatever_shown J T (e :: d) s)
    by (intros; assumption).
  assert (Hclear : forall T d s,
             whatever_shown J T d s -> whatever_shown J [] d s)
    by (intros T d s H; exact (J_clear T s H)).
  unfold main.
  apply hoare_seq; [apply init_session_state_keeps; assumption | intros _].
  apply hoare_seq; [apply emit_keeps; [assumption | reflexivity] | intros _].
  apply hoare_seq; [apply emit_keeps; [assumption | reflexivity] | intros _].
  eapply hoare_bind; [apply sidebar_keeps; assumption |].
  intros [[api_key selected_model] selected_personality]. cbn [fst snd].
  intros w (Hw & _ & Hp). apply chat_interface_keeps; assumption.
Qed.

End Turn.

(* ===================================================================== *)
(** * Runs that return *)
(* ===================================================================== *)

Lemma returns_bind {A B : Type} (c : M A) (k : A -> M B) w a ss1 s1 b ss2 s2 :
  returns c w a ss1 s1 ->
  (forall d1, returns (k a) (mkWorld ss1 d1 s1) b ss2 s2) ->
  returns (bind c k) w b ss2 s2.
Proof.
  intros [d1 Hc] Hk. destruct (Hk d1) as [d2 Hk2].
  exists d2. unfold bind. rewrite Hc. exact Hk2.
Qed.

Lemma returns_emit e ss d s : returns (st.emit e) (mkWorld ss d s) tt ss s.
Proof. eexists. reflexivity. Qed.

Lemma returns_ret {A : Type} (a : A) ss d s : returns (ret a) (mkWorld ss d s) a ss s.
Proof. eexists. reflexivity. Qed.

Lemma list_index_In l x : In x l -> exists i, list_index l x = Some i.
Proof.
  induction l as [| y rest IH]; intros Hin; [destruct Hin |].
  unfold list_index; fold list_index.
  destruct (String.eqb_spec x y) as [_ | Hne]; [eauto |].
  destruct Hin as [-> | Hin]; [contradiction |].
  destruct (IH Hin) as [i ->]. cbn. eauto.
Qed.

Lemma dict_get_In {A : Type} (d : list (string * A)) k :
  In k (dict_keys d) -> exists v, dict_get d k = Some v.
Proof.
  induction d as [| [k' v] rest IH]; intros Hin; [destruct Hin |].
  unfold dict_get; fold (@dict_get A).
  destruct (String.eqb_spec k k') as [_ | Hne]; [eauto |].
  destruct Hin as [Heq | Hin]; [cbn in Heq; congruence | exact (IH Hin)].
Qed.

#[local] Arguments dict_keys : simpl never.

Section Returns.

Variable post : Request.t -> outcome.
Variable ui : widgets.

Lemma init_session_state_returns ss d s :
  returns init_session_state (mkWorld ss d s) tt
    (session_state.mk (Some (transcript ss)) (Some (stored_key ss))
       (Some (current_personality ss)) (Some (current_model ss)))
    s.
Proof.
  destruct ss as [[m |] [k |] [p |] [md |]]; exists d; reflexivity.
Qed.

Lemma api_key_section_returns T k0 p md d s :
  returns (api_key_section ui)
    (mkWorld (session_state.mk (Some T) (Some k0) p md) d s)
    (api_key_input ui)
    (session_state.mk (Some T) (Some (api_key_input ui)) p md) s.
Proof.
  unfold returns. cbn.
  destruct (truthy (api_key_input ui)); cbn; eexists; reflexivity.
Qed.

Lemma model_section_returns T k p current d s :
  In current GROQ_MODELS ->
  returns (model_section ui)
    (mkWorld (session_state.mk T k p (Some current)) d s)
    (model_select ui)
    (session_state.mk T k p (Some (model_select ui))) s.
Proof.
  intros Hin. destruct (list_index_In _ _ Hin) as [i Hi].
  unfold returns. cbn. unfold index_of. rewrite Hi. cbn.
  eexists; reflexivity.
Qed.

Lemma switch_personality_returns selected_personality T k current md d s :
  returns (switch_personality selected_personality)
    (mkWorld (session_state.mk (Some T) k (Some current) md) d s) tt
    (session_state.mk
       (Some (if String.eqb selected_personality current then T else []))
       k (Some (if String.eqb selected_personality current
                then current else selected_personality)) md)
    s.
Proof.
  unfold returns, switch_personality, bind, st.get_selected_personality, st.read.
  cbn [session session_state.selected_personality].
  destruct (String.eqb selected_personality current); exists d; reflexivity.
Qed.

Lemma personality_section_returns T k current md d s info :
  In current (dict_keys PERSONALITIES) ->
  dict_get PERSONALITIES (personality_select ui) = Some info ->
  returns (personality_section ui)
    (mkWorld (session_state.mk (Some T) k (Some current) md) d s)
    (personality_select ui)
    (session_state.mk
       (Some (if String.eqb (personality_select ui) current then T else []))
       k (Some (personality_select ui)) md)
    s.
Proof.
  intros Hin Hinfo. destruct (list_index_In _ _ Hin) as [i Hi].
  unfold personality_section.
  eapply returns_bind; [apply returns_emit | intros d1].
  eapply returns_bind; [eexists; reflexivity | intros d2].
  unfold index_of. rewrite Hi.
  eapply returns_bind; [apply returns_ret | intros d3].
  eapply returns_bind; [eexists; reflexivity | intros d4].
  eapply returns_bind; [apply switch_personality_returns | intros d5].
  unfold personality. rewrite Hinfo.
  eapply returns_bind; [apply returns_ret | intros d6].
  replace (if String.eqb (personality_select ui) current
           then current else personality_select ui)
    with (personality_select ui)
    by (destruct (String.eqb_spec (personality_select ui) current); congruence).
  eexists. reflexivity.
Qed.

Lemma clear_chat_section_returns ss d s :
  clear_chat_button ui = false ->
  returns (clear_chat_section ui) (mkWorld ss d s) tt ss s.
Proof.
  intros Hb. unfold returns. cbn. rewrite Hb. cbn. eexists; reflexivity.
Qed.

Lemma chat_stats_section_returns T k p md d s :
  returns chat_stats_section
    (mkWorld (session_state.mk (Some T) k p md) d s) tt
    (session_state.mk (Some T) k p md) s.
Proof.
  unfold returns. cbn.
  destruct (Nat.eqb (List.length T) 0); cbn; eexists; reflexivity.
Qed.

Lemma sidebar_returns T k0 current_p current_m d s info :
  In current_m GROQ_MODELS ->
  In current_p (dict_keys PERSONALITIES) ->
  dict_get PERSONALITIES (personality_select ui) = Some info ->
  clear_chat_button ui = false ->
  returns (sidebar ui)
    (mkWorld (session_state.mk (Some T) (Some k0) (Some current_p) (Some current_m))
       d s)
    (api_key_input ui, model_select ui, personality_select ui)
    (session_state.mk
       (Some (if String.eqb (personality_select ui) current_p then T else []))
       (Some (api_key_input ui)) (Some (personality_select ui))
       (Some (model_select ui)))
    s.
Proof.
  intros Hm Hp Hinfo Hb. unfold sidebar.
  eapply returns_bind; [apply returns_emit | intros d1].
  eapply returns_bind; [apply api_key_section_returns | intros d2].
  eapply returns_bind; [apply returns_emit | intros d3].
  eapply returns_bind; [apply model_section_returns; exact Hm | intros d4].
  eapply returns_bind; [apply returns_emit | intros d5].
  eapply returns_bind;
    [eapply personality_section_returns; eassumption | intros d6].
  eapply returns_bind; [apply returns_emit | intros d7].
  eapply returns_bind; [apply clear_chat_section_returns; exact Hb | intros d8].
  eapply returns_bind; [apply chat_stats_section_returns | intros d9].
  apply returns_ret.
Qed.

Lemma for_each_emits_returns {A : Type} (l : list A) (f g : A -> element) ss d s :
  returns (for_each l (fun x => st.emit (f x) ;; st.emit (g x)))
    (mkWorld ss d s) tt ss s.
Proof.
  revert d. induction l as [| x rest IH]; intros d; cbn [for_each].
  - apply returns_ret.
  - eapply returns_bind; [| intros d1; apply IH].
    eexists. reflexivity.
Qed.

Lemma configuration_section_returns selected_model selected_personality T k p md d s :
  returns (configuration_section selected_model selected_personality)
    (mkWorld (session_state.mk (Some T) k p md) d s) tt
    (session_state.mk (Some T) k p md) s.
Proof. eexists. reflexivity. Qed.

Lemma chat_container_returns T k p md d s :
  returns chat_container
    (mkWorld (session_state.mk (Some T) k p md) d s) tt
    (session_state.mk (Some T) k p md) s.
Proof.
  unfold chat_container.
  eapply returns_bind; [apply returns_emit | intros d1].
  eapply returns_bind; [eexists; reflexivity | intros d2].
  apply (for_each_emits_returns T (fun m => ChatMessage (role m))
           (fun m => Markdown (content m))).
Qed.

Lemma footer_returns ss d s : returns footer (mkWorld ss d s) tt ss s.
Proof. eexists. reflexivity. Qed.

(** A run in which the key is there, the clear button is not pressed and
    a prompt is submitted: [main] returns, having sent the assembled
    request and stored the prompt and the reply. *)
Lemma main_turn_runs w prompt info :
  In (current_model (session w)) GROQ_MODELS ->
  In (current_personality (session w)) (dict_keys PERSONALITIES) ->
  dict_get PERSONALITIES (personality_select ui) = Some info ->
  clear_chat_button ui = false ->
  truthy (api_key_input ui) = true ->
  chat_input_submit ui = Some prompt ->
  truthy prompt = true ->
  let T := if String.eqb (personality_select ui) (current_personality (session w))
           then transcript (session w) else [] in
  let user := mkMessage "user" (VStr prompt) in
  let api_messages :=
    prepare_api_messages (Personality.system_prompt info) (T ++ [user]) in
  exists reply,
    (forall w1,
       fst (call_groq_api post api_messages (api_key_input ui) (model_select ui) w1)
       = Return reply) /\
    returns (main post ui) w tt
      (session_state.mk
         (Some ((T ++ [user]) ++ [mkMessage "assistant" reply]))
         (Some (api_key_input ui)) (Some (personality_select ui))
         (Some (model_select ui)))
      (build_request api_messages (api_key_input ui) (model_select ui) :: sent w).
Proof.
  intros Hm Hp Hinfo Hb Hkey Hprompt Htruthy T user api_messages.
  destruct w as [ss d s]. cbn [session sent] in *.
  set (ss1 := session_state.mk (Some T) (Some (api_key_input ui))
                (Some (personality_select ui)) (Some (model_select ui))).
  assert (Hturn : forall d1, exists reply d',
             (forall w1,
                fst (call_groq_api post api_messages (api_key_input ui)
                       (model_select ui) w1) = Return reply) /\
             chat_turn post (api_key_input ui) (model_select ui)
               (personality_select ui) prompt (mkWorld ss1 d1 s) =
             (Return tt,
              mkWorld
                (session_state.mk
                   (Some ((T ++ [user]) ++ [mkMessage "assistant" reply]))
                   (Some (api_key_input ui)) (Some (personality_select ui))
                   (Some (model_select ui)))
                d'
                (build_request api_messages (api_key_input ui) (model_select ui)
                 :: s))).
  { intros d1.
    exact (chat_turn_runs post (api_key_input ui) (model_select ui)
             (personality_select ui) prompt info (mkWorld ss1 d1 s) T
             eq_refl Hinfo). }
  destruct (Hturn []) as (reply & _ & Hreply & _).
  exists reply. split; [exact Hreply |].
  unfold main.
  eapply returns_bind; [apply init_session_state_returns | intros d1].
  eapply returns_bind; [apply returns_emit | intros d2].
  eapply returns_bind; [apply returns_emit | intros d3].
  eapply returns_bind; [eapply sidebar_returns; eassumption | intros d4].
  cbv beta iota. unfold chat_interface. rewrite Hkey. cbn [negb].
  eapply returns_bind; [apply configuration_section_returns | intros d5].
  eapply returns_bind; [apply chat_container_returns | intros d6].
  eapply returns_bind; [eexists; reflexivity | intros d7].
  rewrite Hprompt.
  eapply returns_bind; [| intros d8; apply footer_returns].
  rewrite Htruthy. cbn [when]. fold T. fold ss1.
  destruct (Hturn d7) as (reply' & d' & Hreply' & Hrun).
  assert (reply' = reply).
  { specialize (Hreply (mkWorld ss1 [] [])). specialize (Hreply' (mkWorld ss1 [] [])).
    congruence. }
  subst reply'. exists d'. exact Hrun.
Qed.

(** A run in which the clear button is not pressed and no prompt is
    submitted: [main] returns and sends nothing; the transcript is the one
    it found, emptied if the personality was switched. *)
Lemma main_idle_runs w info :
  In (current_model (session w)) GROQ_MODELS ->
  In (current_personality (session w)) (dict_keys PERSONALITIES) ->
  dict_get PERSONALITIES (personality_select ui) = Some info ->
  clear_chat_button ui = false ->
  chat_input_submit ui = None ->
  returns (main post ui) w tt
    (session_state.mk
       (Some (if String.eqb (personality_select ui)
                   (current_personality (session w))
              then transcript (session w) else []))
       (Some (api_key_input ui)) (Some (personality_select ui))
       (Some (model_select ui)))
    (sent w).
Proof.
  intros Hm Hp Hinfo Hb Hprompt.
  destruct w as [ss d s]. cbn [session sent] in *.
  unfold main.
  eapply returns_bind; [apply init_session_state_returns | intros d1].
  eapply returns_bind; [apply returns_emit | intros d2].
  eapply returns_bind; [apply returns_emit | intros d3].
  eapply returns_bind; [eapply sidebar_returns; eassumption | intros d4].
  cbv beta iota. unfold chat_interface.
  destruct (truthy (api_key_input ui)); cbn [negb].
  - eapply returns_bind; [apply configuration_section_returns | intros d5].
    eapply returns_bind; [apply chat_container_returns | intros d6].
    eapply returns_bind; [eexists; reflexivity | intros d7].
    rewrite Hprompt.
    eapply returns_bind; [apply returns_ret | intros d8].
    apply footer_returns.
  - eexists. reflexivity.
Qed.

End Returns.

(* ===================================================================== *)
(** * The request window *)
(* ===================================================================== *)

Lemma slice_from_last_20 {A : Type} (l : list A) :
  slice_from (-20) l = skipn (List.length l - 20) l.
Proof.
  unfold slice_from. change (-20 <? 0)%Z with true. cbv beta iota zeta.
  f_equal. lia.
Qed.

Lemma prepare_api_messages_eq personality_prompt messages :
  prepare_api_messages personality_prompt messages =
  mkMessage "system" (VStr personality_prompt)
  :: skipn (List.length messages - 20) messages.
Proof.
  unfold prepare_api_messages. rewrite slice_from_last_20. reflexivity.
Qed.

(** The window of a transcript that ends with [m] ends with [m]. *)
Lemma prepare_api_messages_last personality_prompt T m :
  exists front,
    prepare_api_messages personality_prompt (T ++ [m]) = front ++ [m].
Proof.
  rewrite prepare_api_messages_eq, skipn_app, length_app. cbn [List.length].
  replace (List.length T + 1 - 20 - List.length T)%nat with 0%nat by lia.
  cbn [skipn].
  exists (mkMessage "system" (VStr personality_prompt)
          :: skipn (List.length T + 1 - 20) T).
  reflexivity.
Qed.

(** C1.  For a transcript [T] of [N] entries (the new user message
    included) and a personality [P], the list sent has [min N 20 + 1]
    elements; the first is the system message with the prompt of [P];
    the others are the last [min N 20] entries of [T], in order: they are
    what remains of [T] when its first [N - min N 20] entries are
    dropped.  In a run of [main] in which a prompt is submitted, the
    messages of the request sent are this list, for the selected
    personality and the transcript with the user message appended. *)
Theorem request_is_system_then_last_20 :
  (forall (P : Personality.t) (T : list Message),
     let N := List.length T in
     let api_messages := prepare_api_messages (Personality.system_prompt P) T in
     List.length api_messages = (Nat.min N 20 + 1)%nat /\
     nth_error api_messages 0 =
       Some (mkMessage "system" (VStr (Personality.system_prompt P))) /\
     tl api_messages = skipn (N - Nat.min N 20) T /\
     List.length (tl api_messages) = Nat.min N 20 /\
     exists older, T = older ++ tl api_messages) /\
  (forall post ui w prompt P,
     In (current_model (session w)) GROQ_MODELS ->
     In (current_personality (session w)) (dict_keys PERSONALITIES) ->
     dict_get PERSONALITIES (personality_select ui) = Some P ->
     clear_chat_button ui = false ->
     truthy (api_key_input ui) = true ->
     chat_input_submit ui = Some prompt ->
     truthy prompt = true ->
     exists req T reply,
       sent (snd (main post ui w)) = req :: sent w /\
       session_state.messages (session (snd (main post ui w))) =
         Some (T ++ [mkMessage "assistant" reply]) /\
       Data.messages (Request.json req) =
         prepare_api_messages (Personality.system_prompt P) T).
Proof.
  split.
  - intros P T N api_messages. subst api_messages.
    rewrite prepare_api_messages_eq. cbn [List.length nth_error tl]. fold N.
    replace (N - Nat.min N 20)%nat with (N - 20)%nat by lia.
    assert (Hlen : List.length (skipn (N - 20) T) = Nat.min N 20)
      by (rewrite length_skipn; fold N; lia).
    repeat split; try (rewrite Hlen; lia); try assumption.
    exists (firstn (N - 20) T). symmetry. apply firstn_skipn.
  - intros post ui w prompt P Hm Hp Hinfo Hb Hkey Hprompt Htruthy.
    destruct (main_turn_runs post ui w prompt P Hm Hp Hinfo Hb Hkey Hprompt Htruthy)
      as (reply & _ & d' & Hrun).
    rewrite Hrun. cbn [snd sent session session_state.messages].
    do 2 eexists. exists reply. repeat split.
Qed.

Lemma request_is_system_then_last_20_witness :
  exists P req T reply,
    dict_get PERSONALITIES "Math Teacher" = Some P /\
    sent (snd (main refuses asks_hi start)) = req :: sent start /\
    session_state.messages (session (snd (main refuses asks_hi start))) =
      Some (T ++ [mkMessage "assistant" reply]) /\
    Data.messages (Request.json req) =
      prepare_api_messages (Personality.system_prompt P) T.
Proof.
  assert (HP : exists P, dict_get PERSONALITIES "Math Teacher" = Some P)
    by (vm_compute; eexists; reflexivity).
  destruct HP as [P HP]. exists P.
  destruct (proj2 request_is_system_then_last_20 refuses asks_hi start "hi" P)
    as (req & T & reply & H).
  - vm_compute. auto.
  - vm_compute. auto.
  - exact HP.
  - reflexivity.
  - reflexivity.
  - reflexivity.
  - reflexivity.
  - exists req, T, reply. split; [exact HP | exact H].
Defined.

Example slice_from_short : slice_from (-20) (seq 1 3) = [1; 2; 3]%nat.
Proof. reflexivity. Qed.

Example slice_from_long : slice_from (-20) (seq 1 23) = seq 4 20.
Proof. reflexivity. Qed.

Example window_of_25 :
  map content
    (prepare_api_messages "be brief"
       (map (fun n => mkMessage "user" (VInt (Z.of_nat n))) (seq 1 25)))
  = VStr "be brief" :: map (fun n => VInt (Z.of_nat n)) (seq 6 20).
Proof. reflexivity. Qed.

Example main_clear_button :
  let w := snd (main (answers (VStr "hello")) asks_hi start) in
  let ui := mkWidgets "gsk" "gemma2-9b-it" "Math Teacher" true None in
  fst (main hangs ui w) = Raise RerunException /\
  session (snd (main hangs ui w)) =
    session_state.mk (Some []) (Some "gsk") (Some "Math Teacher")
      (Some "gemma2-9b-it").
Proof. vm_compute. split; reflexivity. Qed.

Example main_unknown_model_in_session :
  fst (main hangs asks_hi
         (mkWorld (session_state.mk None None None (Some "gpt")) [] []))
  = Raise (ValueError "'gpt' is not in list").
Proof. vm_compute. reflexivity. Qed.

Example main_answers_hello :
  session_state.messages (session (snd (main (answers (VStr "hello")) asks_hi start)))
  = Some [mkMessage "user" (VStr "hi"); mkMessage "assistant" (VStr "hello")].
Proof. vm_compute. reflexivity. Qed.

(** C9.  The list sent ends with the message that was just appended:
    for every transcript and every message appended to it, and so in every
    run of [main] in which a prompt is submitted, where the last message
    of the request sent is the user message with that prompt. *)
Theorem request_ends_with_the_question :
  (forall personality_prompt T m,
     exists front,
       prepare_api_messages personality_prompt (T ++ [m]) = front ++ [m]) /\
  (forall post ui w prompt info,
     In (current_model (session w)) GROQ_MODELS ->
     In (current_personality (session w)) (dict_keys PERSONALITIES) ->
     dict_get PERSONALITIES (personality_select ui) = Some info ->
     clear_chat_button ui = false ->
     truthy (api_key_input ui) = true ->
     chat_input_submit ui = Some prompt ->
     truthy prompt = true ->
     exists req front,
       fst (main post ui w) = Return tt /\
       sent (snd (main post ui w)) = req :: sent w /\
       Data.messages (Request.json req) =
         front ++ [mkMessage "user" (VStr prompt)]).
Proof.
  split; [exact prepare_api_messages_last |].
  intros post ui w prompt info Hm Hp Hinfo Hb Hkey Hprompt Htruthy.
  destruct (main_turn_runs post ui w prompt info Hm Hp Hinfo Hb Hkey Hprompt Htruthy)
    as (reply & _ & d' & Hrun).
  rewrite Hrun. cbn [fst snd sent].
  match goal with
  | |- context [prepare_api_messages ?p (?T ++ [?m])] =>
      destruct (prepare_api_messages_last p T m) as [front Hfront]
  end.
  eexists. exists front. repeat split. cbn. exact Hfront.
Qed.

Lemma request_ends_with_the_question_witness :
  exists req front,
    fst (main hangs asks_hi start) = Return tt /\
    sent (snd (main hangs asks_hi start)) = req :: sent start /\
    Data.messages (Request.json req) = front ++ [mkMessage "user" (VStr "hi")].
Proof.
  eapply (proj2 request_ends_with_the_question hangs asks_hi start "hi").
  - vm_compute. auto.
  - vm_compute. auto.
  - vm_compute. reflexivity.
  - reflexivity.
  - reflexivity.
  - reflexivity.
  - reflexivity.
Defined.

(** C6.  [clear_chat] empties the transcript and leaves the selected
    personality, the selected model and the key as they are; it then
    stops the run with [st.rerun()]. *)
Theorem clear_chat_empties_transcript_only (w : world) :
  clear_chat w =
    (Raise RerunException,
     mkWorld
       (session_state.mk (Some [])
          (session_state.groq_api_key (session w))
          (session_state.selected_personality (session w))
          (session_state.selected_model (session w)))
       (display w) (sent w)).
Proof. reflexivity. Qed.

(** C3.  When the personality reported by the selectbox differs from the
    one selected in the session, the transcript is empty right after the
    switch of lines 193-196, whatever it was before, and the reported
    personality is the selected one; the same holds after the whole
    personality section of the sidebar, however that section ends, and at
    the end of a run of [main] in which nothing else is done. *)
Theorem switching_personality_clears_transcript
    (w : world) (current selected_personality : string) :
  session_state.selected_personality (session w) = Some current ->
  selected_personality <> current ->
  switch_personality selected_personality w =
    (Return tt,
     mkWorld
       (session_state.mk (Some [])
          (session_state.groq_api_key (session w))
          (Some selected_personality)
          (session_state.selected_model (session w)))
       (display w) (sent w)) /\
  (forall ui,
     personality_select ui = selected_personality ->
     In current (dict_keys PERSONALITIES) ->
     session (snd (personality_section ui w)) =
       session_state.mk (Some [])
         (session_state.groq_api_key (session w))
         (Some selected_personality)
         (session_state.selected_model (session w))) /\
  (forall post ui info,
     personality_select ui = selected_personality ->
     In current (dict_keys PERSONALITIES) ->
     In (current_model (session w)) GROQ_MODELS ->
     dict_get PERSONALITIES selected_personality = Some info ->
     clear_chat_button ui = false ->
     chat_input_submit ui = None ->
     fst (main post ui w) = Return tt /\
     session_state.messages (session (snd (main post ui w))) = Some [] /\
     session_state.selected_personality (session (snd (main post ui w))) =
       Some selected_personality).
Proof.
  intros Hcur Hne. destruct w as [[m k p md] d s]. cbn in Hcur. subst p.
  assert (Hsw : forall d1,
            switch_personality selected_personality
              (mkWorld (session_state.mk m k (Some current) md) d1 s) =
            (Return tt,
             mkWorld (session_state.mk (Some []) k (Some selected_personality) md)
               d1 s)).
  { intros d1.
    unfold switch_personality, bind, st.get_selected_personality, st.read.
    cbn [session session_state.selected_personality].
    destruct (String.eqb_spec selected_personality current);
      [contradiction | reflexivity]. }
  split; [apply Hsw | split].
  - intros ui Hsel Hin. destruct (list_index_In _ _ Hin) as [i Hi].
    unfold personality_section, bind at 1, st.subheader, st.emit.
    unfold bind at 1, st.get_selected_personality, st.read.
    cbn [session session_state.selected_personality].
    unfold bind at 1, index_of. rewrite Hi. unfold ret at 1.
    unfold bind at 1, st.selectbox, bind at 1, st.emit. unfold ret at 1.
    cbn [session display sent]. rewrite Hsel.
    unfold bind at 1. rewrite Hsw.
    unfold bind at 1, personality.
    destruct (dict_get PERSONALITIES selected_personality); reflexivity.
  - intros post ui info Hsel Hin Hm Hinfo Hb Hprompt. subst selected_personality.
    destruct (main_idle_runs post ui
                (mkWorld (session_state.mk m k (Some current) md) d s) info
                Hm Hin Hinfo Hb Hprompt) as (d' & Hrun).
    rewrite Hrun.
    cbn [fst snd session session_state.messages
         session_state.selected_personality current_personality].
    destruct (String.eqb_spec (personality_select ui) current);
      [contradiction | repeat split].
Qed.

Lemma switching_personality_clears_transcript_witness :
  session (snd (switch_personality "Chef"
                  (snd (main (answers (VStr "hello")) asks_hi start)))) =
    session_state.mk (Some []) (Some "gsk") (Some "Chef")
      (Some "llama-3.1-70b-versatile").
Proof.
  pose proof (switching_personality_clears_transcript
                (snd (main (answers (VStr "hello")) asks_hi start))
                "Math Teacher" "Chef") as H.
  destruct H as [H _].
  - vm_compute. reflexivity.
  - discriminate.
  - rewrite H. vm_compute. reflexivity.
Defined.

(* ===================================================================== *)
(** * The shape of the transcript *)
(* ===================================================================== *)

Lemma well_formed_turn T prompt reply :
  well_formed T = true ->
  well_formed ((T ++ [mkMessage "user" (VStr prompt)])
               ++ [mkMessage "assistant" reply]) = true.
Proof.
  rewrite <- app_assoc. cbn [app].
  assert (H : forall n T, (List.length T <= n)%nat -> well_formed T = true ->
              well_formed (T ++ [mkMessage "user" (VStr prompt);
                                 mkMessage "assistant" reply]) = true).
  { induction n as [| n IH]; intros [| u [| a rest]] Hlen Hwf;
      try reflexivity; try discriminate; cbn [List.length] in Hlen; try lia.
    cbn [well_formed app] in *.
    apply andb_true_iff in Hwf. destruct Hwf as [Hroles Hrest].
    rewrite Hroles. cbn [andb]. apply IH; [lia | exact Hrest]. }
  apply (H (List.length T)). lia.
Qed.

(** C2.  From a session a user can get to, a run of [main] in which a
    prompt is submitted returns, whatever the network does, and leaves the
    transcript it found (emptied first if the personality was switched in
    the same run) followed by exactly two entries: the user message with
    the prompt, then one assistant message.  Hence the transcript of every
    such session is a sequence of exchanges, a user entry followed by an
    assistant entry. *)
Theorem turn_appends_user_then_assistant (s : session_state.t) :
  reachable s ->
  well_formed (transcript s) = true /\
  forall post ui d q prompt info,
    In (current_model s) GROQ_MODELS ->
    In (current_personality s) (dict_keys PERSONALITIES) ->
    dict_get PERSONALITIES (personality_select ui) = Some info ->
    clear_chat_button ui = false ->
    truthy (api_key_input ui) = true ->
    chat_input_submit ui = Some prompt ->
    truthy prompt = true ->
    let T := if String.eqb (personality_select ui) (current_personality s)
             then transcript s else [] in
    exists reply,
      fst (main post ui (mkWorld s d q)) = Return tt /\
      session_state.messages (session (snd (main post ui (mkWorld s d q)))) =
        Some (T ++ [mkMessage "user" (VStr prompt);
                    mkMessage "assistant" reply]).
Proof.
  intros Hreach. split.
  - induction Hreach as [| post ui w Hreach IH]; [reflexivity |].
    pose proof (main_keeps post ui (fun T _ => well_formed T = true)
                  (fun _ _ _ => eq_refl)
                  (fun T _ prompt reply _ _ _ H => well_formed_turn T prompt reply H)
                  w IH) as Hkeep.
    destruct (main post ui w) as [[[] | e] w']; exact Hkeep.
  - intros post ui d q prompt info Hm Hp Hinfo Hb Hkey Hprompt Htruthy T.
    destruct (main_turn_runs post ui (mkWorld s d q) prompt info
                Hm Hp Hinfo Hb Hkey Hprompt Htruthy)
      as (reply & _ & d' & Hrun).
    exists reply. rewrite Hrun. cbn [fst snd session session_state.messages].
    split; [reflexivity |]. rewrite <- app_assoc. reflexivity.
Qed.

Lemma turn_appends_user_then_assistant_witness :
  well_formed (transcript session_state.empty) = true /\
  exists reply,
    fst (main refuses asks_hi start) = Return tt /\
    session_state.messages (session (snd (main refuses asks_hi start))) =
      Some ([] ++ [mkMessage "user" (VStr "hi"); mkMessage "assistant" reply]).
Proof.
  destruct (turn_appends_user_then_assistant session_state.empty reachable_start)
    as [Hwf Hturn].
  split; [exact Hwf |].
  eapply (Hturn refuses asks_hi [] [] "hi").
  - vm_compute. auto.
  - vm_compute. auto.
  - vm_compute. reflexivity.
  - reflexivity.
  - reflexivity.
  - reflexivity.
  - reflexivity.
Defined.

(* ===================================================================== *)
(** * Failures of the completion call *)
(* ===================================================================== *)

(** C4.  When the endpoint answers with a status other than 200, the
    call returns the text "Sorry, I encountered an error processing your
    request.", and a run of [main] in which a prompt is submitted still
    returns and appends, after the user message, exactly one assistant
    message, which carries that text. *)
Theorem non_200_status_gives_error_reply (post : Request.t -> outcome) :
  (forall req, exists r,
      post req = Responds r /\ Response.status_code r <> 200%Z) ->
  (forall messages api_key model w,
     fst (call_groq_api post messages api_key model w) =
       Return (VStr "Sorry, I encountered an error processing your request.")) /\
  (forall ui w prompt info,
     In (current_model (session w)) GROQ_MODELS ->
     In (current_personality (session w)) (dict_keys PERSONALITIES) ->
     dict_get PERSONALITIES (personality_select ui) = Some info ->
     clear_chat_button ui = false ->
     truthy (api_key_input ui) = true ->
     chat_input_submit ui = Some prompt ->
     truthy prompt = true ->
     let T := if String.eqb (personality_select ui)
                   (current_personality (session w))
              then transcript (session w) else [] in
     fst (main post ui w) = Return tt /\
     session_state.messages (session (snd (main post ui w))) =
       Some (T ++ [mkMessage "user" (VStr prompt);
                   mkMessage "assistant"
                     (VStr "Sorry, I encountered an error processing your request.")])).
Proof.
  intros Hpost.
  assert (Hcall : forall messages api_key model w,
             fst (call_groq_api post messages api_key model w) =
             Return (VStr error_reply)).
  { intros messages api_key model w.
    destruct (Hpost (build_request messages api_key model)) as (r & Hr & Hstatus).
    rewrite (call_groq_api_status post messages api_key model r w Hr Hstatus).
    reflexivity. }
  split; [exact Hcall |].
  intros ui w prompt info Hm Hp Hinfo Hb Hkey Hprompt Htruthy T.
  destruct (main_turn_runs post ui w prompt info Hm Hp Hinfo Hb Hkey Hprompt Htruthy)
    as (reply & Hreply & d' & Hrun).
  specialize (Hreply start). rewrite Hcall in Hreply.
  injection Hreply as <-.
  rewrite Hrun. cbn [fst snd session session_state.messages].
  split; [reflexivity |]. rewrite <- app_assoc. reflexivity.
Qed.

Lemma non_200_status_gives_error_reply_witness :
  fst (call_groq_api refuses [] "gsk" "gemma2-9b-it" start) =
    Return (VStr "Sorry, I encountered an error processing your request.") /\
  session_state.messages (session (snd (main refuses asks_hi start))) =
    Some ([] ++ [mkMessage "user" (VStr "hi");
                 mkMessage "assistant"
                   (VStr "Sorry, I encountered an error processing your request.")]).
Proof.
  assert (H : forall req, exists r,
             refuses req = Responds r /\ Response.status_code r <> 200%Z).
  { intros req. eexists. split; [reflexivity | cbn; discriminate]. }
  destruct (non_200_status_gives_error_reply refuses H) as [Hcall Hturn].
  split; [apply Hcall |].
  eapply (Hturn asks_hi start "hi").
  - vm_compute. auto.
  - vm_compute. auto.
  - vm_compute. reflexivity.
  - reflexivity.
  - reflexivity.
  - reflexivity.
  - reflexivity.
Defined.

(** C5.  When the request times out, the call returns the text "Request
    timed out. Please try again.", which is not the generic fallback that
    a status other than 200 and any other exception of the transport
    give; and a run of [main] in which a prompt is submitted still returns
    and appends, after the user message, exactly one assistant message,
    which carries the timeout text. *)
Theorem timeout_gives_timeout_reply (post : Request.t -> outcome) :
  (forall req, exists msg, post req = TimesOut msg) ->
  (forall messages api_key model w,
     fst (call_groq_api post messages api_key model w) =
       Return (VStr "Request timed out. Please try again.")) /\
  (forall (other : Request.t -> outcome) messages api_key model w,
     (exists r, other (build_request messages api_key model) = Responds r /\
                Response.status_code r <> 200%Z) \/
     (exists msg, other (build_request messages api_key model) = Fails msg) ->
     exists generic,
       fst (call_groq_api other messages api_key model w) = Return (VStr generic) /\
       generic <> "Request timed out. Please try again.") /\
  (forall ui w prompt info,
     In (current_model (session w)) GROQ_MODELS ->
     In (current_personality (session w)) (dict_keys PERSONALITIES) ->
     dict_get PERSONALITIES (personality_select ui) = Some info ->
     clear_chat_button ui = false ->
     truthy (api_key_input ui) = true ->
     chat_input_submit ui = Some prompt ->
     truthy prompt = true ->
     let T := if String.eqb (personality_select ui)
                   (current_personality (session w))
              then transcript (session w) else [] in
     fst (main post ui w) = Return tt /\
     session_state.messages (session (snd (main post ui w))) =
       Some (T ++ [mkMessage "user" (VStr prompt);
                   mkMessage "assistant"
                     (VStr "Request timed out. Please try again.")])).
Proof.
  intros Hpost.
  assert (Hcall : forall messages api_key model w,
             fst (call_groq_api post messages api_key model w) =
             Return (VStr timeout_reply)).
  { intros messages api_key model w.
    destruct (Hpost (build_request messages api_key model)) as (msg & Hmsg).
    rewrite (call_groq_api_timeout post messages api_key model msg w Hmsg).
    reflexivity. }
  split; [exact Hcall | split].
  - intros other messages api_key model w [(r & Hr & Hstatus) | (msg & Hmsg)];
      exists error_reply; (split; [| discriminate]).
    + rewrite (call_groq_api_status other messages api_key model r w Hr Hstatus).
      reflexivity.
    + rewrite (call_groq_api_fails other messages api_key model msg w Hmsg).
      reflexivity.
  - intros ui w prompt info Hm Hp Hinfo Hb Hkey Hprompt Htruthy T.
    destruct (main_turn_runs post ui w prompt info Hm Hp Hinfo Hb Hkey Hprompt Htruthy)
      as (reply & Hreply & d' & Hrun).
    specialize (Hreply start). rewrite Hcall in Hreply.
    injection Hreply as <-.
    rewrite Hrun. cbn [fst snd session session_state.messages].
    split; [reflexivity |]. rewrite <- app_assoc. reflexivity.
Qed.

Lemma timeout_gives_timeout_reply_witness :
  fst (call_groq_api hangs [] "gsk" "gemma2-9b-it" start) =
    Return (VStr "Request timed out. Please try again.") /\
  session_state.messages (session (snd (main hangs asks_hi start))) =
    Some ([] ++ [mkMessage "user" (VStr "hi");
                 mkMessage "assistant"
                   (VStr "Request timed out. Please try again.")]).
Proof.
  assert (H : forall req, exists msg, hangs req = TimesOut msg).
  { intros req. eexists. reflexivity. }
  destruct (timeout_gives_timeout_reply hangs H) as (Hcall & _ & Hturn).
  split; [apply Hcall |].
  eapply (Hturn asks_hi start "hi").
  - vm_compute. auto.
  - vm_compute. auto.
  - vm_compute. reflexivity.
  - reflexivity.
  - reflexivity.
  - reflexivity.
  - reflexivity.
Defined.

(* ===================================================================== *)
(** * The empty key *)
(* ===================================================================== *)

Lemma quiet_since_start w0 : inv (quiet_since w0) w0.
Proof.
  unfold inv, quiet_since. repeat split; [| lia].
  exists []. split; [reflexivity | constructor].
Qed.

Lemma quiet_since_emit w0 T d s e :
  is_chat_input e = false -> quiet_since w0 T d s -> quiet_since w0 T (e :: d) s.
Proof.
  intros He (Hs & (shown & Hd & Hall) & Hlen). repeat split; try assumption.
  exists (e :: shown). split; [rewrite Hd; reflexivity | constructor; assumption].
Qed.

Lemma quiet_since_clear w0 T d s :
  quiet_since w0 T d s -> quiet_since w0 [] d s.
Proof.
  intros (Hs & Hshown & _). repeat split; try assumption. cbn. lia.
Qed.

(** C7.  In a run in which the key is the empty string, whatever the
    session, the other widgets and the network, and however the run ends:
    no request is sent, no chat input is among the elements shown, and the
    transcript does not grow. *)
Theorem empty_key_blocks_chat
    (post : Request.t -> outcome) (ui : widgets) (w : world) :
  api_key_input ui = "" ->
  sent (snd (main post ui w)) = sent w /\
  (exists shown,
     display (snd (main post ui w)) = shown ++ display w /\
     Forall (fun e => is_chat_input e = false) shown) /\
  (List.length (transcript (session (snd (main post ui w))))
   <= List.length (transcript (session w)))%nat.
Proof.
  intros Hempty.
  pose proof (main_blocked post ui (quiet_since w)
                (quiet_since_emit w) (quiet_since_clear w)
                Hempty w (quiet_since_start w)) as Hkeep.
  destruct (main post ui w) as [[[] | e] w']; exact Hkeep.
Qed.

Lemma empty_key_blocks_chat_witness :
  sent (snd (main (answers (VStr "hello"))
               (mkWidgets "" "gemma2-9b-it" "Chef" false (Some "hi")) start))
  = sent start.
Proof.
  apply (empty_key_blocks_chat (answers (VStr "hello"))
           (mkWidgets "" "gemma2-9b-it" "Chef" false (Some "hi")) start).
  reflexivity.
Defined.

(* ===================================================================== *)
(** * The parameters of the request *)
(* ===================================================================== *)

Lemma build_request_fixed messages api_key model :
  fixed_parameters (build_request messages api_key model).
Proof. repeat split. Qed.

(** C8.  The call sends one request, with temperature 0.7, at most 1024
    tokens, no streaming and a timeout of 30 seconds, and with the
    messages and the model it was given; every request sent in a run of
    [main] has these four parameters; and when the status is 200 and the
    decoded body has a first choice with a message and its content, the
    call returns that content. *)
Theorem request_parameters_are_fixed :
  (forall post messages api_key model w,
     exists req,
       sent (snd (call_groq_api post messages api_key model w)) = req :: sent w /\
       Data.temperature (Request.json req) = 0.7%Q /\
       Data.max_tokens (Request.json req) = 1024%Z /\
       Data.stream (Request.json req) = false /\
       Request.timeout req = 30%Z /\
       Data.messages (Request.json req) = messages /\
       Data.model (Request.json req) = model) /\
  (forall post ui w,
     exists new,
       sent (snd (main post ui w)) = new ++ sent w /\
       Forall fixed_parameters new) /\
  (forall post messages api_key model w r result reply,
     post (build_request messages api_key model) = Responds r ->
     Response.status_code r = 200%Z ->
     Response.json r = inr result ->
     first_choice_content result = inr reply ->
     fst (call_groq_api post messages api_key model w) = Return reply).
Proof.
  split; [| split].
  - intros post messages api_key model w.
    destruct (call_groq_api_returns post messages api_key model w)
      as (reply & d' & ->).
    exists (build_request messages api_key model). repeat split.
  - intros post ui w.
    pose proof (main_keeps post ui (fixed_since (sent w))) as Hkeep.
    assert (Hw : inv (whatever_shown (fixed_since (sent w))) w)
      by (exists []; split; [reflexivity | constructor]).
    specialize (Hkeep (fun _ _ H => H)).
    assert (Hturn : forall T s (prompt : string) (reply : value) messages api_key model,
               fixed_since (sent w) T s ->
               fixed_since (sent w)
                 ((T ++ [mkMessage "user" (VStr prompt)])
                  ++ [mkMessage "assistant" reply])
                 (build_request messages api_key model :: s)).
    { intros T s prompt reply messages api_key model (new & Hs & Hall).
      exists (build_request messages api_key model :: new). split.
      - rewrite Hs. reflexivity.
      - constructor; [apply build_request_fixed | exact Hall]. }
    specialize (Hkeep Hturn w Hw).
    destruct (main post ui w) as [[[] | e] w']; exact Hkeep.
  - intros post messages api_key model w r result reply Hpost Hstatus Hjson Hcontent.
    unfold first_choice_content in Hcontent.
    destruct (getitem result (KStr "choices")) as [| choices] eqn:H1;
      [discriminate |].
    destruct (getitem choices (KInt 0)) as [| choice] eqn:H2; [discriminate |].
    destruct (getitem choice (KStr "message")) as [| message] eqn:H3;
      [discriminate |].
    rewrite (call_groq_api_content post messages api_key model r result choices
               choice message reply w Hpost Hstatus Hjson H1 H2 H3 Hcontent).
    reflexivity.
Qed.

Lemma request_parameters_are_fixed_witness :
  fst (call_groq_api (answers (VStr "hello")) [] "gsk" "gemma2-9b-it" start) =
    Return (VStr "hello").
Proof.
  eapply (proj2 (proj2 request_parameters_are_fixed)
            (answers (VStr "hello")) [] "gsk" "gemma2-9b-it" start).
  - reflexivity.
  - reflexivity.
  - reflexivity.
  - reflexivity.
Defined.

Example call_groq_api_body_without_choices :
  fst (call_groq_api (fun _ => Responds (Response.mk 200 "{}" (inr (VDict []))))
         [] "gsk" "gemma2-9b-it" start)
  = Return (VStr "Sorry, I encountered an error processing your request.").
Proof. reflexivity. Qed.

(* ===================================================================== *)
(** * The key and the request *)
(* ===================================================================== *)

(** C10.  The key goes into the [Authorization] header and nowhere else:
    two requests built from the same messages and model with two keys
    have the same body, url and timeout and the same other headers; the
    call leaves the session, and so the transcript, as it is; and two
    runs of [main] from the same world that differ only in the non-empty
    key typed in send requests with the same body, and store transcripts
    that are the same up to the reply of the network, hence the same when
    the network treats the two requests alike. *)
Theorem request_body_independent_of_key :
  (forall messages model k1 k2,
     Request.json (build_request messages k1 model) =
       Request.json (build_request messages k2 model) /\
     Request.url (build_request messages k1 model) =
       Request.url (build_request messages k2 model) /\
     Request.timeout (build_request messages k1 model) =
       Request.timeout (build_request messages k2 model) /\
     filter (fun h => negb (String.eqb (fst h) "Authorization"))
       (Request.headers (build_request messages k1 model)) =
     filter (fun h => negb (String.eqb (fst h) "Authorization"))
       (Request.headers (build_request messages k2 model)) /\
     dict_get (Request.headers (build_request messages k1 model)) "Authorization"
       = Some ("Bearer " ++ k1)%string) /\
  (forall post messages api_key model w,
     session (snd (call_groq_api post messages api_key model w)) = session w) /\
  (forall post1 post2 ui k1 k2 w prompt info,
     In (current_model (session w)) GROQ_MODELS ->
     In (current_personality (session w)) (dict_keys PERSONALITIES) ->
     dict_get PERSONALITIES (personality_select ui) = Some info ->
     clear_chat_button ui = false ->
     truthy k1 = true ->
     truthy k2 = true ->
     chat_input_submit ui = Some prompt ->
     truthy prompt = true ->
     exists req1 req2 T reply1 reply2,
       sent (snd (main post1 (with_key ui k1) w)) = req1 :: sent w /\
       sent (snd (main post2 (with_key ui k2) w)) = req2 :: sent w /\
       Request.json req1 = Request.json req2 /\
       session_state.messages (session (snd (main post1 (with_key ui k1) w))) =
         Some (T ++ [mkMessage "assistant" reply1]) /\
       session_state.messages (session (snd (main post2 (with_key ui k2) w))) =
         Some (T ++ [mkMessage "assistant" reply2]) /\
       (post1 req1 = post2 req2 -> reply1 = reply2)).
Proof.
  split; [| split].
  - intros messages model k1 k2. repeat split.
  - intros post messages api_key model w.
    destruct (call_groq_api_returns post messages api_key model w)
      as (reply & d' & ->).
    reflexivity.
  - intros post1 post2 ui k1 k2 w prompt info Hm Hp Hinfo Hb Hk1 Hk2 Hprompt Htruthy.
    destruct (main_turn_runs post1 (with_key ui k1) w prompt info
                Hm Hp Hinfo Hb Hk1 Hprompt Htruthy)
      as (reply1 & Hreply1 & d1 & Hrun1).
    destruct (main_turn_runs post2 (with_key ui k2) w prompt info
                Hm Hp Hinfo Hb Hk2 Hprompt Htruthy)
      as (reply2 & Hreply2 & d2 & Hrun2).
    rewrite Hrun1, Hrun2. cbn [snd sent session session_state.messages].
    do 2 eexists. eexists. exists reply1, reply2.
    repeat split.
    intros Hsame. specialize (Hreply1 start). specialize (Hreply2 start).
    rewrite (call_groq_api_reply_of_outcome _ _ _ _ _ _ _ _ start start Hsame)
      in Hreply1.
    congruence.
Qed.

Lemma request_body_independent_of_key_witness :
  exists req1 req2 T reply1 reply2,
    sent (snd (main refuses (with_key asks_hi "wrong") start)) = req1 :: sent start /\
    sent (snd (main (answers (VStr "hello")) (with_key asks_hi "gsk") start))
      = req2 :: sent start /\
    Request.json req1 = Request.json req2 /\
    session_state.messages
      (session (snd (main refuses (with_key asks_hi "wrong") start))) =
      Some (T ++ [mkMessage "assistant" reply1]) /\
    session_state.messages
      (session (snd (main (answers (VStr "hello")) (with_key asks_hi "gsk") start))) =
      Some (T ++ [mkMessage "assistant" reply2]) /\
    (refuses req1 = answers (VStr "hello") req2 -> reply1 = reply2).
Proof.
  eapply (proj2 (proj2 request_body_independent_of_key)
            refuses (answers (VStr "hello")) asks_hi "wrong" "gsk" start "hi").
  - vm_compute. auto.
  - vm_compute. auto.
  - vm_compute. reflexivity.
  - reflexivity.
  - reflexivity.
  - reflexivity.
  - reflexivity.
  - reflexivity.
Defined.

(* ===================================================================== *)
(** * Every way a run of [main] ends *)
(* ===================================================================== *)

Lemma raises_bind {A B : Type} (c : M A) (k : A -> M B) w e ss s :
  raises c w e ss s -> raises (bind c k) w e ss s.
Proof.
  intros [d' Hc]. exists d'. unfold bind. rewrite Hc. reflexivity.
Qed.

Lemma returns_raises_bind {A B : Type} (c : M A) (k : A -> M B)
    w a ss1 s1 e ss2 s2 :
  returns c w a ss1 s1 ->
  (forall d1, raises (k a) (mkWorld ss1 d1 s1) e ss2 s2) ->
  raises (bind c k) w e ss2 s2.
Proof.
  intros [d1 Hc] Hk. destruct (Hk d1) as [d2 Hk2].
  exists d2. unfold bind. rewrite Hc. exact Hk2.
Qed.


Lemma list_index_nth l x i :
  list_index l x = Some i -> nth_error l i = Some x.
Proof.
  revert i. induction l as [| y rest IH]; intros i; [discriminate |].
  unfold list_index; fold list_index.
  destruct (String.eqb_spec x y) as [-> | Hne].
  - intros [= <-]. reflexivity.
  - destruct (list_index rest x) as [j |]; [| discriminate].
    intros [= <-]. cbn. apply IH. reflexivity.
Qed.

Section Outcomes.

Variable post : Request.t -> outcome.
Variable ui : widgets.

Lemma clear_chat_section_raises m k p md d s :
  clear_chat_button ui = true ->
  raises (clear_chat_section ui) (mkWorld (session_state.mk m k p md) d s)
    RerunException (session_state.mk (Some []) k p md) s.
Proof.
  intros Hb. unfold raises. cbn. rewrite Hb. cbn. eexists; reflexivity.
Qed.

Lemma sidebar_clear_raises T k0 current_p current_m d s info :
  In current_m GROQ_MODELS ->
  In current_p (dict_keys PERSONALITIES) ->
  dict_get PERSONALITIES (personality_select ui) = Some info ->
  clear_chat_button ui = true ->
  raises (sidebar ui)
    (mkWorld (session_state.mk (Some T) (Some k0) (Some current_p) (Some current_m))
       d s)
    RerunException
    (session_state.mk (Some []) (Some (api_key_input ui))
       (Some (personality_select ui)) (Some (model_select ui)))
    s.
Proof.
  intros Hm Hp Hinfo Hb. unfold sidebar.
  eapply returns_raises_bind; [apply returns_emit | intros d1].
  eapply returns_raises_bind; [apply api_key_section_returns | intros d2].
  eapply returns_raises_bind; [apply returns_emit | intros d3].
  eapply returns_raises_bind; [apply model_section_returns; exact Hm | intros d4].
  eapply returns_raises_bind; [apply returns_emit | intros d5].
  eapply returns_raises_bind;
    [eapply personality_section_returns; eassumption | intros d6].
  eapply returns_raises_bind; [apply returns_emit | intros d7].
  apply raises_bind. apply clear_chat_section_raises. exact Hb.
Qed.

(** The clear button: the run stops in the sidebar. *)
Lemma main_clear_raises w info :
  valid (session w) ->
  dict_get PERSONALITIES (personality_select ui) = Some info ->
  clear_chat_button ui = true ->
  raises (main post ui) w RerunException
    (session_state.mk (Some []) (Some (api_key_input ui))
       (Some (personality_select ui)) (Some (model_select ui)))
    (sent w).
Proof.
  intros [Hm Hp] Hinfo Hb. destruct w as [ss d s]. cbn [session sent] in *.
  unfold main.
  eapply returns_raises_bind; [apply init_session_state_returns | intros d1].
  eapply returns_raises_bind; [apply returns_emit | intros d2].
  eapply returns_raises_bind; [apply returns_emit | intros d3].
  apply raises_bind. eapply sidebar_clear_raises; eassumption.
Qed.

(** No clear button and no turn: the run returns and sends nothing. *)
Lemma main_quiet_runs w info :
  valid (session w) ->
  dict_get PERSONALITIES (personality_select ui) = Some info ->
  clear_chat_button ui = false ->
  takes_turn ui = false ->
  returns (main post ui) w tt
    (session_state.mk (Some (kept_transcript ui (session w)))
       (Some (api_key_input ui)) (Some (personality_select ui))
       (Some (model_select ui)))
    (sent w).
Proof.
  intros [Hm Hp] Hinfo Hb Hturn.
  unfold takes_turn, prompt_submitted in Hturn. rewrite Hb in Hturn.
  cbn [negb andb] in Hturn.
  destruct w as [ss d s]. cbn [session sent] in *.
  unfold main, kept_transcript.
  eapply returns_bind; [apply init_session_state_returns | intros d1].
  eapply returns_bind; [apply returns_emit | intros d2].
  eapply returns_bind; [apply returns_emit | intros d3].
  eapply returns_bind; [eapply sidebar_returns; eassumption | intros d4].
  cbv beta iota. unfold chat_interface.
  destruct (truthy (api_key_input ui)); cbn [negb andb] in *.
  - eapply returns_bind; [apply configuration_section_returns | intros d5].
    eapply returns_bind; [apply chat_container_returns | intros d6].
    eapply returns_bind; [eexists; reflexivity | intros d7].
    eapply returns_bind; [| intros d8; apply footer_returns].
    destruct (chat_input_submit ui) as [prompt |]; [| apply returns_ret].
    rewrite Hturn. apply returns_ret.
  - eexists. reflexivity.
Qed.


End Outcomes.

(* ===================================================================== *)
(** * The start of a session *)
(* ===================================================================== *)

(** X1.  [init_session_state] returns, shows and sends nothing, leaves
    every key that is set as it is and sets the others to the empty
    transcript, the empty key, "Math Teacher" and
    "llama-3.1-70b-versatile"; calling it again changes nothing; and the
    two default selections are options of the selectboxes of the
    sidebar. *)
Theorem init_session_state_fills_unset_keys (w : world) :
  let w' := snd (init_session_state w) in
  fst (init_session_state w) = Return tt /\
  display w' = display w /\
  sent w' = sent w /\
  session_state.messages (session w') =
    Some (match session_state.messages (session w) with
          | Some l => l
          | None => []
          end) /\
  session_state.groq_api_key (session w') =
    Some (match session_state.groq_api_key (session w) with
          | Some k => k
          | None => ""
          end) /\
  session_state.selected_personality (session w') =
    Some (match session_state.selected_personality (session w) with
          | Some p => p
          | None => "Math Teacher"
          end) /\
  session_state.selected_model (session w') =
    Some (match session_state.selected_model (session w) with
          | Some m => m
          | None => "llama-3.1-70b-versatile"
          end) /\
  init_session_state w' = (Return tt, w') /\
  In "Math Teacher" (dict_keys PERSONALITIES) /\
  In "llama-3.1-70b-versatile" GROQ_MODELS.
Proof.
  destruct w as [[[m |] [k |] [p |] [md |]] d s]; cbv zeta;
    repeat split; try reflexivity; vm_compute; auto.
Qed.

(* ===================================================================== *)
(** * Every way the completion call ends *)
(* ===================================================================== *)

(** What subscripting raises is handled by the second [except]. *)
Lemma getitem_raises_handled v k e :
  getitem v k = inl e ->
  call_groq_api_except e =
    Some (st.error ("Error: " ++ str_of_exception e) ;; ret (VStr error_reply)).
Proof.
  unfold getitem. intros H.
  repeat match type of H with
         | context [match ?x with _ => _ end] => destruct x
         end; inversion H; reflexivity.
Qed.

Lemma first_choice_content_raises_handled result e :
  first_choice_content result = inl e ->
  call_groq_api_except e =
    Some (st.error ("Error: " ++ str_of_exception e) ;; ret (VStr error_reply)).
Proof.
  unfold first_choice_content. intros H.
  destruct (getitem result (KStr "choices")) as [e1 | choices] eqn:H1;
    [injection H as <-; exact (getitem_raises_handled _ _ _ H1) |].
  destruct (getitem choices (KInt 0)) as [e2 | choice] eqn:H2;
    [injection H as <-; exact (getitem_raises_handled _ _ _ H2) |].
  destruct (getitem choice (KStr "message")) as [e3 | message] eqn:H3;
    [injection H as <-; exact (getitem_raises_handled _ _ _ H3) |].
  exact (getitem_raises_handled _ _ _ H).
Qed.

(** Status 200: what the call does with the body. *)
Lemma call_groq_api_decodes post messages api_key model r w :
  post (build_request messages api_key model) = Responds r ->
  Response.status_code r = 200%Z ->
  call_groq_api post messages api_key model w =
    match Response.json r with
    | inl msg =>
        (Return (VStr error_reply),
         mkWorld (session w) (Error ("Error: " ++ msg) :: display w)
           (build_request messages api_key model :: sent w))
    | inr result =>
        match first_choice_content result with
        | inr reply =>
            (Return reply,
             mkWorld (session w) (display w)
               (build_request messages api_key model :: sent w))
        | inl e =>
            (Return (VStr error_reply),
             mkWorld (session w)
               (Error ("Error: " ++ str_of_exception e) :: display w)
               (build_request messages api_key model :: sent w))
        end
    end.
Proof.
  intros Hpost Hstatus.
  destruct (Response.json r) as [msg | result] eqn:Hjson.
  - unfold call_groq_api, try_except, bind, requests_post, response_json.
    rewrite Hpost, Hstatus, Hjson. reflexivity.
  - destruct (first_choice_content result) as [e | reply] eqn:Hcontent.
    + pose proof (first_choice_content_raises_handled result e Hcontent) as Hh.
      unfold first_choice_content in Hcontent.
      unfold call_groq_api, try_except, bind, requests_post, response_json.
      rewrite Hpost, Hstatus, Hjson. cbv beta iota.
      change (200 =? 200)%Z with true. cbv beta iota. unfold ret at 1. cbv beta iota.
      destruct (getitem result (KStr "choices")) as [e1 | choices];
        [injection Hcontent as ->; unfold lift at 1, raise at 1; cbv beta iota;
         rewrite Hh; reflexivity |].
      unfold lift at 1, ret at 1. cbv beta iota.
      destruct (getitem choices (KInt 0)) as [e2 | choice];
        [injection Hcontent as ->; unfold lift at 1, raise at 1; cbv beta iota;
         rewrite Hh; reflexivity |].
      unfold lift at 1, ret at 1. cbv beta iota.
      destruct (getitem choice (KStr "message")) as [e3 | message];
        [injection Hcontent as ->; unfold lift at 1, raise at 1; cbv beta iota;
         rewrite Hh; reflexivity |].
      unfold lift at 1, ret at 1. cbv beta iota.
      rewrite Hcontent. unfold lift at 1, raise at 1. cbv beta iota.
      rewrite Hh. reflexivity.
    + unfold first_choice_content in Hcontent.
      destruct (getitem result (KStr "choices")) as [| choices] eqn:H1;
        [discriminate |].
      destruct (getitem choices (KInt 0)) as [| choice] eqn:H2; [discriminate |].
      destruct (getitem choice (KStr "message")) as [| message] eqn:H3;
        [discriminate |].
      exact (call_groq_api_content post messages api_key model r result choices
               choice message reply w Hpost Hstatus Hjson H1 H2 H3 Hcontent).
Qed.

(** Every way the call ends. *)
Lemma call_groq_api_cases
    (post : Request.t -> outcome) (messages : list Message)
    (api_key model : string) (w : world) :
  match success (post (build_request messages api_key model)) with
  | Some reply =>
      call_groq_api post messages api_key model w =
        (Return reply,
         mkWorld (session w) (display w)
           (build_request messages api_key model :: sent w))
  | None =>
      exists body fallback,
        call_groq_api post messages api_key model w =
          (Return (VStr fallback),
           mkWorld (session w) (Error body :: display w)
             (build_request messages api_key model :: sent w)) /\
        (fallback = "Sorry, I encountered an error processing your request." \/
         fallback = "Request timed out. Please try again.")
  end.
Proof.
  destruct (post (build_request messages api_key model)) as [r | msg | msg] eqn:Hpost;
    unfold success.
  - destruct (Z.eqb_spec (Response.status_code r) 200) as [Hstatus | Hstatus].
    + rewrite (call_groq_api_decodes post messages api_key model r w Hpost Hstatus).
      destruct (Response.json r) as [msg | result].
      * do 2 eexists. split; [reflexivity | left; reflexivity].
      * destruct (first_choice_content result) as [e | reply]; [| reflexivity].
        do 2 eexists. split; [reflexivity | left; reflexivity].
    + rewrite (call_groq_api_status post messages api_key model r w Hpost Hstatus).
      do 2 eexists. split; [reflexivity | left; reflexivity].
  - rewrite (call_groq_api_timeout post messages api_key model msg w Hpost).
    do 2 eexists. split; [reflexivity | right; reflexivity].
  - rewrite (call_groq_api_fails post messages api_key model msg w Hpost).
    do 2 eexists. split; [reflexivity | left; reflexivity].
Qed.

(** X2.  [call_groq_api] never raises.  It sends exactly one request and
    leaves the session as it is.  When the call succeeds (status 200 and
    a body with the content of the first choice) it returns that content
    and shows nothing; in every other case it shows exactly one error and
    returns one of the two fallback texts. *)
Theorem call_groq_api_returns_reply_or_fallback
    (post : Request.t -> outcome) (messages : list Message)
    (api_key model : string) (w : world) :
  match success (post (build_request messages api_key model)) with
  | Some reply =>
      call_groq_api post messages api_key model w =
        (Return reply,
         mkWorld (session w) (display w)
           (build_request messages api_key model :: sent w))
  | None =>
      exists body fallback,
        call_groq_api post messages api_key model w =
          (Return (VStr fallback),
           mkWorld (session w) (Error body :: display w)
             (build_request messages api_key model :: sent w)) /\
        (fallback = "Sorry, I encountered an error processing your request." \/
         fallback = "Request timed out. Please try again.")
  end.
Proof. exact (call_groq_api_cases post messages api_key model w). Qed.

(** X3.  Status 200 with a body that cannot be used: when the body does
    not decode, or decodes to a value without
    [choices[0].message.content], the call shows "Error: " followed by
    the text of the exception and returns the generic fallback text. *)
Theorem unusable_body_gives_error_reply
    (post : Request.t -> outcome) (messages : list Message)
    (api_key model : string) (r : Response.t) (w : world) :
  post (build_request messages api_key model) = Responds r ->
  Response.status_code r = 200%Z ->
  (forall msg,
     Response.json r = inl msg ->
     call_groq_api post messages api_key model w =
       (Return (VStr "Sorry, I encountered an error processing your request."),
        mkWorld (session w) (Error ("Error: " ++ msg) :: display w)
          (build_request messages api_key model :: sent w))) /\
  (forall result e,
     Response.json r = inr result ->
     first_choice_content result = inl e ->
     call_groq_api post messages api_key model w =
       (Return (VStr "Sorry, I encountered an error processing your request."),
        mkWorld (session w)
          (Error ("Error: " ++ str_of_exception e) :: display w)
          (build_request messages api_key model :: sent w))).
Proof.
  intros Hpost Hstatus.
  rewrite (call_groq_api_decodes post messages api_key model r w Hpost Hstatus).
  split.
  - intros msg ->. reflexivity.
  - intros result e -> ->. reflexivity.
Qed.

Lemma unusable_body_gives_error_reply_witness :
  call_groq_api (fun _ => Responds (Response.mk 200 "{}" (inr (VDict []))))
    [] "gsk" "gemma2-9b-it" start =
    (Return (VStr "Sorry, I encountered an error processing your request."),
     mkWorld (session start) (Error "Error: 'choices'" :: display start)
       (build_request [] "gsk" "gemma2-9b-it" :: sent start)).
Proof.
  apply (proj2 (unusable_body_gives_error_reply
                  (fun _ => Responds (Response.mk 200 "{}" (inr (VDict []))))
                  [] "gsk" "gemma2-9b-it"
                  (Response.mk 200 "{}" (inr (VDict []))) start
                  eq_refl eq_refl)
           (VDict []) (KeyError "'choices'")).
  - reflexivity.
  - reflexivity.
Defined.

(* ===================================================================== *)
(** * What a run of [main] leaves *)
(* ===================================================================== *)

Lemma takes_turn_true ui :
  takes_turn ui = true ->
  clear_chat_button ui = false /\
  truthy (api_key_input ui) = true /\
  exists prompt, chat_input_submit ui = Some prompt /\ truthy prompt = true.
Proof.
  unfold takes_turn, prompt_submitted. intros H.
  apply andb_true_iff in H. destruct H as [H Hprompt].
  apply andb_true_iff in H. destruct H as [Hb Hkey].
  apply negb_true_iff in Hb. repeat split; try assumption.
  destruct (chat_input_submit ui) as [prompt |]; [eauto | discriminate].
Qed.

Lemma listed_personality ui :
  listed ui -> exists info, dict_get PERSONALITIES (personality_select ui) = Some info.
Proof. intros [_ Hp]. apply dict_get_In. exact Hp. Qed.

(** From a valid session, with listed selections: how the run ends, what
    it stores and what it sends. *)
Lemma main_ends post ui w :
  valid (session w) ->
  listed ui ->
  exists T new d',
    main post ui w =
      (if clear_chat_button ui then Raise RerunException else Return tt,
       mkWorld
         (session_state.mk (Some T) (Some (api_key_input ui))
            (Some (personality_select ui)) (Some (model_select ui)))
         d' (new ++ sent w)) /\
    List.length new = (if takes_turn ui then 1 else 0)%nat.
Proof.
  intros Hvalid Hlisted.
  destruct (listed_personality ui Hlisted) as [info Hinfo].
  destruct (clear_chat_button ui) eqn:Hb.
  - destruct (main_clear_raises post ui w info Hvalid Hinfo Hb) as [d' Hrun].
    exists [], [], d'. split; [exact Hrun |].
    unfold takes_turn. rewrite Hb. reflexivity.
  - destruct (takes_turn ui) eqn:Hturn.
    + destruct (takes_turn_true ui Hturn) as (_ & Hkey & prompt & Hprompt & Htruthy).
      destruct Hvalid as [Hm Hp].
      destruct (main_turn_runs post ui w prompt info Hm Hp Hinfo Hb Hkey
                  Hprompt Htruthy) as (reply & _ & d' & Hrun).
      eexists.
      match type of Hrun with
      | _ = (_, mkWorld _ _ (?req :: _)) => exists [req]
      end.
      exists d'. split; [exact Hrun | reflexivity].
    + destruct (main_quiet_runs post ui w info Hvalid Hinfo Hb Hturn)
        as [d' Hrun].
      eexists. exists [], d'. split; [exact Hrun | reflexivity].
Qed.

Lemma visited_valid s : visited s -> valid s.
Proof.
  induction 1 as [| post ui w Hvisited IH Hlisted].
  - split; vm_compute; auto.
  - destruct (main_ends post ui w IH Hlisted) as (T & new & d' & Hrun & _).
    rewrite Hrun. exact Hlisted.
Qed.

(** X4.  The clear button: from a valid session, a run in which the
    button is pressed stops there with the rerun exception, whatever else
    the widgets report; the transcript is empty, the key and the two
    selections reported are stored, and nothing is sent, even when a
    prompt is submitted in the same run. *)
Theorem clear_button_stops_the_run
    (post : Request.t -> outcome) (ui : widgets) (w : world) :
  valid (session w) ->
  listed ui ->
  clear_chat_button ui = true ->
  fst (main post ui w) = Raise RerunException /\
  session (snd (main post ui w)) =
    session_state.mk (Some []) (Some (api_key_input ui))
      (Some (personality_select ui)) (Some (model_select ui)) /\
  sent (snd (main post ui w)) = sent w.
Proof.
  intros Hvalid Hlisted Hb.
  destruct (listed_personality ui Hlisted) as [info Hinfo].
  destruct (main_clear_raises post ui w info Hvalid Hinfo Hb) as [d' Hrun].
  rewrite Hrun. repeat split.
Qed.

Lemma clear_button_stops_the_run_witness :
  fst (main hangs
         (mkWidgets "gsk" "gemma2-9b-it" "Chef" true (Some "hi"))
         (snd (main (answers (VStr "hello")) asks_hi start)))
  = Raise RerunException.
Proof.
  apply (clear_button_stops_the_run hangs
           (mkWidgets "gsk" "gemma2-9b-it" "Chef" true (Some "hi"))
           (snd (main (answers (VStr "hello")) asks_hi start))).
  - split; vm_compute; auto.
  - split; vm_compute; auto 10.
  - reflexivity.
Defined.

(** X5.  A run without a turn: when the clear button is not pressed and
    the key is empty, or no prompt or an empty prompt is submitted, [main]
    returns and sends nothing; it stores the key and the two selections
    reported; and the transcript is the one it found unless the
    personality is switched.  In particular selecting another model does
    not touch the transcript. *)
Theorem run_without_turn_keeps_transcript
    (post : Request.t -> outcome) (ui : widgets) (w : world) :
  valid (session w) ->
  listed ui ->
  clear_chat_button ui = false ->
  truthy (api_key_input ui) = false \/ prompt_submitted ui = false ->
  fst (main post ui w) = Return tt /\
  session (snd (main post ui w)) =
    session_state.mk
      (Some (if String.eqb (personality_select ui)
                  (current_personality (session w))
             then transcript (session w) else []))
      (Some (api_key_input ui)) (Some (personality_select ui))
      (Some (model_select ui)) /\
  sent (snd (main post ui w)) = sent w.
Proof.
  intros Hvalid Hlisted Hb Hno.
  destruct (listed_personality ui Hlisted) as [info Hinfo].
  assert (Hturn : takes_turn ui = false).
  { unfold takes_turn. rewrite Hb. cbn [negb andb].
    destruct Hno as [-> | ->]; [reflexivity | apply andb_false_r]. }
  destruct (main_quiet_runs post ui w info Hvalid Hinfo Hb Hturn) as [d' Hrun].
  rewrite Hrun. repeat split.
Qed.

Lemma run_without_turn_keeps_transcript_witness :
  session (snd (main hangs
                  (mkWidgets "gsk" "gemma2-9b-it" "Math Teacher" false (Some ""))
                  (snd (main (answers (VStr "hello")) asks_hi start)))) =
    session_state.mk
      (Some [mkMessage "user" (VStr "hi"); mkMessage "assistant" (VStr "hello")])
      (Some "gsk") (Some "Math Teacher") (Some "gemma2-9b-it").
Proof.
  apply (run_without_turn_keeps_transcript hangs
           (mkWidgets "gsk" "gemma2-9b-it" "Math Teacher" false (Some ""))
           (snd (main (answers (VStr "hello")) asks_hi start))).
  - split; vm_compute; auto.
  - split; vm_compute; auto 10.
  - reflexivity.
  - right. reflexivity.
Defined.

(** X6.  When the front end reports options of the two selectboxes in
    every run, the selections stored in the session stay options, and no
    run of [main] ends with [ValueError], [KeyError] or [AttributeError]:
    it returns, or it stops with the rerun exception when the clear
    button is pressed. *)
Theorem main_returns_or_reruns
    (s : session_state.t) (post : Request.t -> outcome) (ui : widgets)
    (d : list element) (q : list Request.t) :
  visited s ->
  listed ui ->
  valid s /\
  fst (main post ui (mkWorld s d q)) =
    (if clear_chat_button ui then Raise RerunException else Return tt) /\
  valid (session (snd (main post ui (mkWorld s d q)))).
Proof.
  intros Hvisited Hlisted.
  pose proof (visited_valid s Hvisited) as Hvalid.
  destruct (main_ends post ui (mkWorld s d q) Hvalid Hlisted)
    as (T & new & d' & Hrun & _).
  rewrite Hrun. repeat split; try apply Hvalid; apply Hlisted.
Qed.

Lemma main_returns_or_reruns_witness :
  fst (main refuses asks_hi start) = Return tt.
Proof.
  apply (main_returns_or_reruns session_state.empty refuses asks_hi [] []).
  - apply visited_start.
  - split; vm_compute; auto.
Defined.

(** X7.  From a valid session, a run of [main] sends one request when the
    clear button is not pressed, the key is not empty and a prompt that is
    not empty is submitted, and none otherwise. *)
Theorem one_request_per_turn
    (post : Request.t -> outcome) (ui : widgets) (w : world) :
  valid (session w) ->
  listed ui ->
  exists new,
    sent (snd (main post ui w)) = new ++ sent w /\
    List.length new =
      (if negb (clear_chat_button ui) && truthy (api_key_input ui)
          && match chat_input_submit ui with
             | Some prompt => truthy prompt
             | None => false
             end
       then 1 else 0)%nat.
Proof.
  intros Hvalid Hlisted.
  destruct (main_ends post ui w Hvalid Hlisted) as (T & new & d' & Hrun & Hlen).
  exists new. rewrite Hrun. split; [reflexivity | exact Hlen].
Qed.

Lemma one_request_per_turn_witness :
  exists new,
    sent (snd (main refuses asks_hi start)) = new ++ sent start /\
    List.length new = 1%nat.
Proof.
  apply (one_request_per_turn refuses asks_hi start).
  - split; vm_compute; auto.
  - split; vm_compute; auto.
Defined.

(** X8.  A successful turn stores what the network answered: when the
    status is 200 and the body has the content of the first choice, a run
    of [main] in which a prompt is submitted appends the user message and
    an assistant message whose content is that content, as it is. *)
Theorem successful_turn_stores_the_content
    (post : Request.t -> outcome) (ui : widgets) (w : world)
    (prompt : string) (reply : value) :
  valid (session w) ->
  listed ui ->
  clear_chat_button ui = false ->
  truthy (api_key_input ui) = true ->
  chat_input_submit ui = Some prompt ->
  truthy prompt = true ->
  (forall req, success (post req) = Some reply) ->
  fst (main post ui w) = Return tt /\
  session_state.messages (session (snd (main post ui w))) =
    Some ((if String.eqb (personality_select ui)
                (current_personality (session w))
           then transcript (session w) else [])
          ++ [mkMessage "user" (VStr prompt); mkMessage "assistant" reply]).
Proof.
  intros [Hm Hp] Hlisted Hb Hkey Hprompt Htruthy Hsuccess.
  destruct (listed_personality ui Hlisted) as [info Hinfo].
  destruct (main_turn_runs post ui w prompt info Hm Hp Hinfo Hb Hkey
              Hprompt Htruthy) as (reply' & Hreply & d' & Hrun).
  specialize (Hreply start).
  match type of Hreply with
  | fst (call_groq_api post ?m ?k ?md start) = _ =>
      pose proof (call_groq_api_cases post m k md start) as Hcall;
      rewrite (Hsuccess (build_request m k md)) in Hcall;
      rewrite Hcall in Hreply
  end.
  injection Hreply as <-.
  rewrite Hrun. cbn [fst snd session session_state.messages].
  split; [reflexivity |]. rewrite <- app_assoc. reflexivity.
Qed.

Lemma successful_turn_stores_the_content_witness :
  session_state.messages (session (snd (main (answers VNone) asks_hi start))) =
    Some ([] ++ [mkMessage "user" (VStr "hi"); mkMessage "assistant" VNone]).
Proof.
  apply (successful_turn_stores_the_content (answers VNone) asks_hi start "hi" VNone).
  - split; vm_compute; auto.
  - split; vm_compute; auto.
  - reflexivity.
  - reflexivity.
  - reflexivity.
  - reflexivity.
  - intros req. reflexivity.
Defined.

(* ===================================================================== *)
(** * What the page shows *)
(* ===================================================================== *)

Lemma for_each_shows_entries (l : list Message) ss d s :
  for_each l (fun message =>
                st.chat_message (role message) ;;
                st.markdown (content message))
    (mkWorld ss d s) =
  (Return tt, mkWorld ss (flat_map shown_entry (rev l) ++ d) s).
Proof.
  revert d. induction l as [| m rest IH]; intros d; [reflexivity |].
  cbn [for_each rev]. unfold bind at 1.
  change ((st.chat_message (role m) ;; st.markdown (content m)) (mkWorld ss d s))
    with (Return tt, mkWorld ss (shown_entry m ++ d) s).
  cbv beta iota. rewrite IH, flat_map_app. cbn [flat_map].
  rewrite app_nil_r, <- app_assoc. reflexivity.
Qed.

Lemma chat_container_shows T k p md d s :
  chat_container (mkWorld (session_state.mk (Some T) k p md) d s) =
  (Return tt,
   mkWorld (session_state.mk (Some T) k p md)
     (flat_map shown_entry (rev T) ++ Container :: d) s).
Proof.
  unfold chat_container, st.container, st.emit, st.get_messages, st.read.
  unfold bind at 1. cbv beta iota. unfold bind at 1.
  cbn [session session_state.messages display sent].
  apply for_each_shows_entries.
Qed.

(** X9.  The chat container shows the whole transcript, not the window
    of 20 that is sent: after the container, for every entry of the
    transcript and in its order, a chat message with the role of the
    entry and then its content. *)
Theorem chat_container_shows_whole_transcript
    (T : list Message) (k p md : option string)
    (d : list element) (s : list Request.t) :
  let ss := session_state.mk (Some T) k p md in
  fst (chat_container (mkWorld ss d s)) = Return tt /\
  session (snd (chat_container (mkWorld ss d s))) = ss /\
  sent (snd (chat_container (mkWorld ss d s))) = s /\
  rev (display (snd (chat_container (mkWorld ss d s)))) =
    rev d ++ Container
      :: flat_map (fun m => [ChatMessage (role m); Markdown (content m)]) T.
Proof.
  intros ss. subst ss. rewrite chat_container_shows.
  cbn [fst snd session sent display]. repeat split.
  rewrite rev_app_distr. cbn [rev]. rewrite <- app_assoc. cbn [app].
  f_equal. f_equal.
  induction T as [| m rest IH]; [reflexivity |].
  cbn [rev flat_map]. rewrite flat_map_app, rev_app_distr, IH.
  cbn. reflexivity.
Qed.

Lemma reachable_well_formed s : reachable s -> well_formed (transcript s) = true.
Proof.
  induction 1 as [| post ui w Hreach IH]; [reflexivity |].
  pose proof (main_keeps post ui (fun T _ => well_formed T = true)
                (fun _ _ _ => eq_refl)
                (fun T _ prompt reply _ _ _ H => well_formed_turn T prompt reply H)
                w IH) as Hkeep.
  destruct (main post ui w) as [[[] | e] w']; exact Hkeep.
Qed.

Lemma well_formed_counts T :
  well_formed T = true ->
  count_role "user" T = Nat.div2 (List.length T) /\
  count_role "assistant" T = Nat.div2 (List.length T).
Proof.
  assert (H : forall n T, (List.length T <= n)%nat -> well_formed T = true ->
              count_role "user" T = Nat.div2 (List.length T) /\
              count_role "assistant" T = Nat.div2 (List.length T)).
  { clear T. induction n as [| n IH]; intros [| u [| a rest]] Hlen Hwf;
      try (split; reflexivity); try discriminate;
      cbn [List.length] in Hlen; try lia.
    cbn [well_formed] in Hwf.
    apply andb_true_iff in Hwf. destruct Hwf as [Hroles Hrest].
    apply andb_true_iff in Hroles. destruct Hroles as [Hu Ha].
    apply String.eqb_eq in Hu. apply String.eqb_eq in Ha.
    destruct (IH rest) as [IHu IHa]; [lia | exact Hrest |].
    unfold count_role in *. cbn [filter List.length Nat.div2].
    rewrite Hu, Ha. cbn [String.eqb Ascii.eqb Bool.eqb]. cbn [List.length].
    rewrite IHu, IHa. split; reflexivity. }
  apply (H (List.length T)). lia.
Qed.

(** X10.  The chat statistics of a session a user can get to: nothing is
    shown while the transcript is empty; otherwise the two numbers shown
    are equal, each half the length of the transcript. *)
Theorem chat_stats_are_balanced
    (s : session_state.t) (T : list Message)
    (d : list element) (q : list Request.t) :
  reachable s ->
  session_state.messages s = Some T ->
  let n := Nat.div2 (List.length T) in
  chat_stats_section (mkWorld s d q) =
    (Return tt,
     mkWorld s
       match T with
       | [] => d
       | _ :: _ =>
           Metric "AI Responses" n :: Metric "User Messages" n
           :: Subheader "📊 Chat Stats" :: d
       end
       q) /\
  (n + n = List.length T)%nat.
Proof.
  intros Hreach HT n.
  pose proof (reachable_well_formed s Hreach) as Hwf.
  unfold transcript in Hwf. rewrite HT in Hwf.
  destruct (well_formed_counts T Hwf) as [Hu Ha].
  split.
  - destruct s as [m k p md]. cbn in HT. subst m.
    unfold chat_stats_section, st.get_messages, st.read, bind at 1.
    cbn [session session_state.messages].
    destruct T as [| u rest]; [reflexivity |].
    cbn [List.length Nat.eqb negb when].
    unfold st.subheader, st.metric, st.emit, bind. cbn [session display sent].
    rewrite Hu, Ha. reflexivity.
  - subst n. clear Hu Ha HT Hreach.
    assert (H : forall n T, (List.length T <= n)%nat -> well_formed T = true ->
                (Nat.div2 (List.length T) + Nat.div2 (List.length T)
                 = List.length T)%nat).
    { clear. induction n as [| n IH]; intros [| u [| a rest]] Hlen Hwf;
        try reflexivity; try discriminate; cbn [List.length] in Hlen; try lia.
      cbn [well_formed] in Hwf. apply andb_true_iff in Hwf.
      destruct Hwf as [_ Hrest]. cbn [List.length Nat.div2].
      specialize (IH rest ltac:(lia) Hrest). lia. }
    apply (H (List.length T)); [lia | exact Hwf].
Qed.

Lemma chat_stats_are_balanced_witness :
  chat_stats_section
    (mkWorld
       (session_state.mk
          (Some [mkMessage "user" (VStr "hi"); mkMessage "assistant" (VStr "hello")])
          (Some "gsk") (Some "Math Teacher") (Some "llama-3.1-70b-versatile"))
       [] []) =
    (Return tt,
     mkWorld
       (session_state.mk
          (Some [mkMessage "user" (VStr "hi"); mkMessage "assistant" (VStr "hello")])
          (Some "gsk") (Some "Math Teacher") (Some "llama-3.1-70b-versatile"))
       [Metric "AI Responses" 1; Metric "User Messages" 1; Subheader "📊 Chat Stats"]
       []).
Proof.
  assert (Hs : session (snd (main (answers (VStr "hello")) asks_hi start)) =
               session_state.mk
                 (Some [mkMessage "user" (VStr "hi");
                        mkMessage "assistant" (VStr "hello")])
                 (Some "gsk") (Some "Math Teacher")
                 (Some "llama-3.1-70b-versatile"))
    by (vm_compute; reflexivity).
  destruct (chat_stats_are_balanced
              (session_state.mk
                 (Some [mkMessage "user" (VStr "hi");
                        mkMessage "assistant" (VStr "hello")])
                 (Some "gsk") (Some "Math Teacher")
                 (Some "llama-3.1-70b-versatile"))
              [mkMessage "user" (VStr "hi"); mkMessage "assistant" (VStr "hello")]
              [] []) as [H _].
  - rewrite <- Hs. apply reachable_run. apply reachable_start.
  - reflexivity.
  - exact H.
Defined.

(* ===================================================================== *)
(** * The selectboxes and the stored selections *)
(* ===================================================================== *)

(** X11.  The model selectbox is shown with the stored model
    preselected: the index passed to it is a position of [GROQ_MODELS],
    and the option at that position is the model stored in the session.
    The section returns what the front end reports and stores it as the
    selected model. *)
Theorem model_selectbox_preselects_stored_model
    (ui : widgets) (T : option (list Message)) (k p : option string)
    (current : string) (d : list element) (s : list Request.t) :
  In current GROQ_MODELS ->
  exists index,
    nth_error GROQ_MODELS index = Some current /\
    model_section ui (mkWorld (session_state.mk T k p (Some current)) d s) =
      (Return (model_select ui),
       mkWorld (session_state.mk T k p (Some (model_select ui)))
         (Selectbox "Choose AI Model:" GROQ_MODELS index
          :: Subheader "🧠 AI Model" :: d)
         s).
Proof.
  intros Hin. destruct (list_index_In _ _ Hin) as [index Hindex].
  exists index. split; [exact (list_index_nth _ _ _ Hindex) |].
  unfold model_section, st.subheader, st.emit, st.get_selected_model, st.read.
  unfold bind at 1. cbv beta iota. unfold bind at 1.
  cbn [session session_state.selected_model].
  unfold bind at 1, index_of. rewrite Hindex. reflexivity.
Qed.

Lemma model_selectbox_preselects_stored_model_witness :
  exists index,
    nth_error GROQ_MODELS index = Some "mixtral-8x7b-32768" /\
    model_section asks_hi
      (mkWorld (session_state.mk None None None (Some "mixtral-8x7b-32768")) [] []) =
      (Return "llama-3.1-70b-versatile",
       mkWorld
         (session_state.mk None None None (Some "llama-3.1-70b-versatile"))
         [Selectbox "Choose AI Model:" GROQ_MODELS index; Subheader "🧠 AI Model"]
         []).
Proof.
  apply (model_selectbox_preselects_stored_model asks_hi None None None
           "mixtral-8x7b-32768" [] []).
  vm_compute. auto 10.
Defined.




(* ===================================================================== *)
(** * The page during a turn *)
(* ===================================================================== *)



(* ===================================================================== *)
(** * The roles in the request *)
(* ===================================================================== *)

Lemma well_formed_nth T n m :
  well_formed T = true ->
  nth_error T n = Some m ->
  role m = if Nat.even n then "user" else "assistant".
Proof.
  assert (H : forall b T n, (List.length T <= b)%nat -> well_formed T = true ->
              nth_error T n = Some m ->
              role m = if Nat.even n then "user" else "assistant").
  { clear. induction b as [| b IH]; intros [| u [| a rest]] n Hlen Hwf Hn;
      try (destruct n; discriminate); try discriminate;
      cbn [List.length] in Hlen; try lia.
    cbn [well_formed] in Hwf.
    apply andb_true_iff in Hwf. destruct Hwf as [Hroles Hrest].
    apply andb_true_iff in Hroles. destruct Hroles as [Hu Ha].
    apply String.eqb_eq in Hu. apply String.eqb_eq in Ha.
    destruct n as [| [| n]]; cbn [nth_error] in Hn.
    - injection Hn as <-. exact Hu.
    - injection Hn as <-. exact Ha.
    - rewrite Nat.even_succ_succ. apply (IH rest n); [lia | exact Hrest | exact Hn]. }
  apply (H (List.length T)). lia.
Qed.

Lemma well_formed_roles T :
  well_formed T = true ->
  Forall (fun m => role m = "user" \/ role m = "assistant") T.
Proof.
  intros Hwf. apply Forall_forall. intros m Hin.
  destruct (In_nth_error T m Hin) as [n Hn].
  rewrite (well_formed_nth T n m Hwf Hn). destruct (Nat.even n); auto.
Qed.

Lemma well_formed_length T :
  well_formed T = true ->
  (Nat.div2 (List.length T) + Nat.div2 (List.length T) = List.length T)%nat.
Proof.
  assert (H : forall b T, (List.length T <= b)%nat -> well_formed T = true ->
              (Nat.div2 (List.length T) + Nat.div2 (List.length T)
               = List.length T)%nat).
  { clear. induction b as [| b IH]; intros [| u [| a rest]] Hlen Hwf;
      try reflexivity; try discriminate; cbn [List.length] in Hlen; try lia.
    cbn [well_formed] in Hwf. apply andb_true_iff in Hwf.
    destruct Hwf as [_ Hrest]. cbn [List.length Nat.div2].
    specialize (IH rest ltac:(lia) Hrest). lia. }
  apply (H (List.length T)). lia.
Qed.

(** The window of a transcript of exchanges with a user message
    appended. *)
Lemma window_of_exchanges personality_prompt T u :
  well_formed T = true ->
  role u = "user" ->
  exists first rest,
    prepare_api_messages personality_prompt (T ++ [u]) =
      mkMessage "system" (VStr personality_prompt) :: first :: rest /\
    role first = (if (List.length T <? 20)%nat then "user" else "assistant") /\
    Forall (fun m => role m = "user" \/ role m = "assistant") (first :: rest).
Proof.
  intros Hwf Hu.
  assert (Hall : Forall (fun m => role m = "user" \/ role m = "assistant")
                   (skipn (List.length (T ++ [u]) - 20) (T ++ [u]))).
  { apply Forall_forall. intros m Hin.
    assert (Hin' : In m (T ++ [u])).
    { rewrite <- (firstn_skipn (List.length (T ++ [u]) - 20) (T ++ [u])).
      apply in_or_app. right. exact Hin. }
    apply in_app_or in Hin'. destruct Hin' as [Hin' | [<- | []]]; [| auto].
    pose proof (well_formed_roles T Hwf) as HT.
    rewrite Forall_forall in HT. exact (HT m Hin'). }
  rewrite prepare_api_messages_eq.
  destruct (skipn (List.length (T ++ [u]) - 20) (T ++ [u])) as [| first rest] eqn:Hskip.
  - exfalso. apply (f_equal (@List.length Message)) in Hskip.
    rewrite length_skipn, length_app in Hskip. cbn [List.length] in Hskip. lia.
  - exists first, rest. repeat split; [| exact Hall].
    pose proof (hd_error_skipn (List.length (T ++ [u]) - 20) (T ++ [u])) as Hhd.
    rewrite Hskip in Hhd. cbn [hd_error] in Hhd. symmetry in Hhd.
    rewrite length_app in Hhd. cbn [List.length] in Hhd.
    destruct (Nat.ltb_spec (List.length T) 20) as [Hlt | Hge].
    + replace (List.length T + 1 - 20)%nat with 0%nat in Hhd by lia.
      destruct T as [| t0 T'].
      * cbn in Hhd. injection Hhd as <-. exact Hu.
      * cbn in Hhd. injection Hhd as <-.
        exact (well_formed_nth (t0 :: T') 0 t0 Hwf eq_refl).
    + pose proof (well_formed_length T Hwf) as Hlen.
      rewrite nth_error_app1 in Hhd by lia.
      rewrite (well_formed_nth T _ first Hwf Hhd).
      replace (List.length T + 1 - 20)%nat
        with (2 * (Nat.div2 (List.length T) - 10) + 1)%nat by lia.
      rewrite Nat.even_odd. reflexivity.
Qed.

(** X14.  The roles in the request of a turn taken from a session a user
    can get to: the system message comes first and is the only one, every
    other message has role user or assistant, and the message after the
    system message is a user message while the transcript found has fewer
    than 20 entries, and an assistant message once it has 20 or more: the
    window then starts in the middle of an exchange. *)
Theorem request_roles
    (post : Request.t -> outcome) (ui : widgets) (w : world)
    (prompt : string) (info : Personality.t) :
  reachable (session w) ->
  valid (session w) ->
  dict_get PERSONALITIES (personality_select ui) = Some info ->
  clear_chat_button ui = false ->
  truthy (api_key_input ui) = true ->
  chat_input_submit ui = Some prompt ->
  truthy prompt = true ->
  let T := if String.eqb (personality_select ui) (current_personality (session w))
           then transcript (session w) else [] in
  exists req first rest,
    sent (snd (main post ui w)) = req :: sent w /\
    Data.messages (Request.json req) =
      mkMessage "system" (VStr (Personality.system_prompt info)) :: first :: rest /\
    role first = (if (List.length T <? 20)%nat then "user" else "assistant") /\
    Forall (fun m => role m = "user" \/ role m = "assistant") (first :: rest).
Proof.
  intros Hreach [Hm Hp] Hinfo Hb Hkey Hprompt Htruthy T.
  destruct (main_turn_runs post ui w prompt info Hm Hp Hinfo Hb Hkey Hprompt Htruthy)
    as (reply & _ & d' & Hrun).
  fold T in Hrun. rewrite Hrun. cbn [snd sent].
  assert (HT : well_formed T = true).
  { subst T. destruct (String.eqb _ _); [| reflexivity].
    apply reachable_well_formed. exact Hreach. }
  destruct (window_of_exchanges (Personality.system_prompt info) T
              (mkMessage "user" (VStr prompt)) HT eq_refl)
    as (first & rest & Hwindow & Hfirst & Hall).
  eexists. exists first, rest. split; [reflexivity |].
  cbn [Request.json build_request Data.messages]. auto.
Qed.

Lemma request_roles_witness :
  exists req first rest,
    sent (snd (main hangs asks_hi start)) = req :: sent start /\
    role first = "user" /\
    Forall (fun m => role m = "user" \/ role m = "assistant") (first :: rest).
Proof.
  assert (Hinfo : exists info, dict_get PERSONALITIES "Math Teacher" = Some info)
    by (vm_compute; eexists; reflexivity).
  destruct Hinfo as [info Hinfo].
  destruct (request_roles hangs asks_hi start "hi" info)
    as (req & first & rest & Hsent & _ & Hfirst & Hall).
  - apply reachable_start.
  - split; vm_compute; auto.
  - exact Hinfo.
  - reflexivity.
  - reflexivity.
  - reflexivity.
  - reflexivity.
  - exists req, first, rest. repeat split; assumption.
Defined.

Example window_splits_an_exchange :
  let exchange n :=
    [mkMessage "user" (VInt (Z.of_nat n)); mkMessage "assistant" (VInt (Z.of_nat n))] in
  map (fun m => (role m, content m))
    (firstn 3
       (prepare_api_messages "be brief"
          (flat_map exchange (seq 1 10) ++ [mkMessage "user" (VStr "hi")])))
  = [("system", VStr "be brief"); ("assistant", VInt 1); ("user", VInt 2)].
Proof. reflexivity. Qed.

(* ===================================================================== *)
(** * The page without a key *)
(* ===================================================================== *)

Lemma hoare_any {A : Type} (P : world -> Prop) (c : M A) :
  hoare P c (fun _ _ => True) (fun _ _ => True).
Proof. intros w _. destruct (c w) as [[a | e] w']; exact I. Qed.

(** A property kept however the computation ends holds in particular
    when it returns. *)
Lemma keeps_returning {A : Type} (P : world -> Prop) (c : M A) :
  keeps P c -> hoare P c (fun _ => P) (fun _ _ => True).
Proof.
  intros H. eapply hoare_weaken; [exact H | | |]; cbv beta; auto.
Qed.

Lemma hoare_pre_fact {A : Type} (P : world -> Prop) (F : Prop) (c : M A)
    (Q : A -> world -> Prop) (E : exception -> world -> Prop) :
  (F -> hoare P c Q E) -> hoare (fun w => P w /\ F) c Q E.
Proof. intros H w [Hw HF]. exact (H HF w Hw). Qed.

Lemma warning_shown_emit T d s e :
  is_chat_input e = false -> warning_shown T d s -> warning_shown T (e :: d) s.
Proof. intros _ H. right. exact H. Qed.

Lemma warning_shown_clear T d s : warning_shown T d s -> warning_shown [] d s.
Proof. intros H. exact H. Qed.

Section NoKey.

Variable post : Request.t -> outcome.
Variable ui : widgets.
Hypothesis no_key : api_key_input ui = "".

Lemma api_key_section_warns :
  hoare (fun _ => True) (api_key_section ui)
    (fun a w => inv warning_shown w /\ a = "") (fun _ _ => True).
Proof.
  intros [[m k p md] d s] _. unfold api_key_section. rewrite no_key.
  destruct k; cbn; [| exact I].
  split; [right; left; reflexivity | reflexivity].
Qed.

Lemma sidebar_warns :
  hoare (fun _ => True) (sidebar ui)
    (fun sel w => inv warning_shown w /\ fst (fst sel) = "")
    (fun _ _ => True).
Proof.
  unfold sidebar.
  eapply hoare_bind; [apply hoare_any | intro].
  eapply hoare_bind; [exact api_key_section_warns |].
  intros api_key. cbv beta. apply hoare_pre_fact. intros ->.
  eapply hoare_bind;
    [apply keeps_returning,
       (emit_keeps warning_shown warning_shown_emit Divider eq_refl)
    | intro].
  eapply hoare_bind;
    [apply keeps_returning,
       (model_section_keeps ui warning_shown warning_shown_emit)
    | intros selected_model].
  eapply hoare_bind;
    [apply keeps_returning,
       (emit_keeps warning_shown warning_shown_emit Divider eq_refl)
    | intro].
  eapply hoare_bind with (Q := fun _ => inv warning_shown).
  { eapply hoare_weaken;
      [apply (personality_section_keeps ui warning_shown warning_shown_emit
                warning_shown_clear) | | |];
      cbv beta; intuition. }
  intros selected_personality.
  eapply hoare_bind;
    [apply keeps_returning,
       (emit_keeps warning_shown warning_shown_emit Divider eq_refl)
    | intro].
  eapply hoare_bind;
    [apply keeps_returning,
       (clear_chat_section_keeps ui warning_shown warning_shown_emit
          warning_shown_clear)
    | intro].
  eapply hoare_bind;
    [apply keeps_returning,
       (chat_stats_section_keeps warning_shown warning_shown_emit)
    | intro].
  apply hoare_ret. auto.
Qed.

Lemma main_instructs :
  hoare (fun _ => True) (main post ui)
    (fun _ w =>
       exists above,
         display w =
           Markdown (VStr "
        ### How to get your Groq API key:
        1. Visit [Groq Console](https://console.groq.com/)
        2. Sign up or log in to your account
        3. Navigate to the API Keys section
        4. Create a new API key
        5. Copy and paste it in the sidebar
        ")
           :: Info "👈 Please enter your Groq API key in the sidebar to start chatting!"
           :: above /\
         In key_warning above)
    (fun _ _ => True).
Proof.
  unfold main.
  eapply hoare_bind; [apply hoare_any | intro].
  eapply hoare_bind; [apply hoare_any | intro].
  eapply hoare_bind; [apply hoare_any | intro].
  eapply hoare_bind; [exact sidebar_warns |].
  intros [[api_key selected_model] selected_personality]. cbn [fst snd].
  intros w [Hw Hkey]. subst api_key. cbn.
  exists (display w). split; [reflexivity | exact Hw].
Qed.

End NoKey.

(** X15.  The page without a key: from a valid session, when the key is
    empty and the clear button is not pressed, [main] returns and the page
    ends with the info that asks for the key and the steps to get one; the
    warning of the sidebar is above them. *)
Theorem empty_key_shows_instructions
    (post : Request.t -> outcome) (ui : widgets) (w : world) :
  valid (session w) ->
  listed ui ->
  clear_chat_button ui = false ->
  api_key_input ui = "" ->
  fst (main post ui w) = Return tt /\
  exists above,
    display (snd (main post ui w)) =
      Markdown (VStr "
        ### How to get your Groq API key:
        1. Visit [Groq Console](https://console.groq.com/)
        2. Sign up or log in to your account
        3. Navigate to the API Keys section
        4. Create a new API key
        5. Copy and paste it in the sidebar
        ")
      :: Info "👈 Please enter your Groq API key in the sidebar to start chatting!"
      :: above /\
    In (Warning "⚠️ Please enter your Groq API key to start chatting!") above.
Proof.
  intros Hvalid Hlisted Hb Hempty.
  destruct (listed_personality ui Hlisted) as [info Hinfo].
  assert (Hturn : takes_turn ui = false).
  { unfold takes_turn. rewrite Hb, Hempty. reflexivity. }
  destruct (main_quiet_runs post ui w info Hvalid Hinfo Hb Hturn) as [d' Hrun].
  pose proof (main_instructs post ui Hempty w I) as Hshown.
  rewrite Hrun in *. split; [reflexivity | exact Hshown].
Qed.

Lemma empty_key_shows_instructions_witness :
  fst (main hangs (with_key asks_hi "") start) = Return tt.
Proof.
  apply (empty_key_shows_instructions hangs (with_key asks_hi "") start).
  - split; vm_compute; auto.
  - split; vm_compute; auto.
  - reflexivity.
  - reflexivity.
Defined.
